(** * Device association service of the Greengrass provisioning package

    A shallow embedding of [DevicesService] (devices.service.ts): the
    creation of a device association task, the queue-driven association of
    the devices with their group, and the task lookup.

    The service is asynchronous TypeScript over injected collaborators.  It
    is embedded as follows.

    - Every call that leaves the service (a dao, the Greengrass utilities,
      the queue, [shortid.generate], [new Date], a handler's [handle]) is an
      [Event] appended to the [history] of the [World].  An event records the
      call and its arguments, never its answer.
    - The collaborators are an [Env] of answer functions.  An answer may
      depend on the whole history up to the call, so a store that fails on
      its second write, or a clock that moves, are both expressible.
    - [DeviceItem] objects are the only objects whose identity matters to a
      property (the summary returned by [createDeviceAssociationTask] holds
      copies, [associateDevicesWithGroup] updates in place).  They live in a
      [heap] and are passed around as references.  The task summary and the
      request context have one owner at a time and are threaded by value;
      a handler returns the request as it left it, also when it throws.
    - [await] sequences; a rejected promise is a [Throw].  A call that is
      not awaited runs, its outcome goes to the [unawaited] list of the
      world and is never inspected by the code that made it. *)

From Stdlib Require Import String ZArith.
From stdpp Require Import base option list strings gmap.

Local Open Scope string_scope.
Local Open Scope Z_scope.
Local Open Scope list_scope.

(** ** Data model *)

(** The literal union ['Waiting' | 'InProgress' | 'Success' | 'Failure']. *)
Inductive Status := Waiting | InProgress | Success | Failure.

Global Instance Status_eq_dec : EqDecision Status.
Proof. solve_decision. Defined.

(** A reference to a [DeviceItem] object. *)
Abbreviation Ref := nat.

Module DeviceItem.
Record t := mk {
  thingName : string;
  type : string;
  provisioningTemplate : string;
  status : option Status;
  statusMessage : option string
}.

(** [{...d, status: s}] and [d.status = s] compute the same field values;
    whether the result is a new object or the old one is decided where
    the heap is updated. *)
Definition with_status (s : Status) (d : t) : t :=
  {| thingName := thingName d;
     type := type d;
     provisioningTemplate := provisioningTemplate d;
     status := Some s;
     statusMessage := statusMessage d |}.
End DeviceItem.

Module DeviceTaskSummary.
(** [D] is [Ref] for a live summary and [option DeviceItem.t] for a
    serialised one. *)
Record t (D : Type) := mk {
  taskId : string;
  groupName : string;
  status : Status;
  createdAt : Z;
  updatedAt : Z;
  devices : list D
}.
Arguments mk {D}.
Arguments taskId {D}.
Arguments groupName {D}.
Arguments status {D}.
Arguments createdAt {D}.
Arguments updatedAt {D}.
Arguments devices {D}.

Definition with_status {D} (s : Status) (x : t D) : t D :=
  mk (taskId x) (groupName x) s (createdAt x) (updatedAt x) (devices x).

Definition map_devices {D E} (f : D → E) (x : t D) : t E :=
  mk (taskId x) (groupName x) (status x) (createdAt x) (updatedAt x)
     (f <$> devices x).
End DeviceTaskSummary.

Module GroupItem.
Record t := mk {
  id : string;
  name : string;
  templateName : string;
  templateVersionNo : Z;
  taskStatus : option Status;
  statusMessage : option string
}.

Definition fail (msg : string) (g : t) : t :=
  {| id := id g;
     name := name g;
     templateName := templateName g;
     templateVersionNo := templateVersionNo g;
     taskStatus := Some Failure;
     statusMessage := Some msg |}.
End GroupItem.

Module TemplateItem.
Record t := mk { name : string; versionNo : Z }.
End TemplateItem.

(** What the Greengrass control plane answers.  The service reads [Id],
    [LatestVersion] and the two definition version arns; the core and
    device definition versions are passed on unread. *)
Module GG.
Record Group := mkGroup { Id : string; LatestVersion : string }.
Record GroupVersion := mkGroupVersion {
  CoreDefinitionVersionArn : string;
  DeviceDefinitionVersionArn : string
}.
Record CoreDefinitionVersion := mkCore { coreDefinition : string }.
Record DeviceDefinitionVersion := mkDevice { deviceDefinition : string }.
End GG.

(** [DeviceAssociationModel], the request context of the handler chain. *)
Module DeviceAssociationModel.
Record t (D : Type) := mk {
  taskInfo : DeviceTaskSummary.t D;
  group : GroupItem.t;
  ggGroup : GG.Group;
  ggCoreVersion : GG.CoreDefinitionVersion;
  ggDeviceVersion : GG.DeviceDefinitionVersion;
  ggGroupVersion : GG.GroupVersion;
  template : TemplateItem.t
}.
Arguments mk {D}.
Arguments taskInfo {D}.
Arguments group {D}.
Arguments ggGroup {D}.
Arguments ggCoreVersion {D}.
Arguments ggDeviceVersion {D}.
Arguments ggGroupVersion {D}.
Arguments template {D}.

Definition with_group {D} (g : GroupItem.t) (r : t D) : t D :=
  mk (taskInfo r) g (ggGroup r) (ggCoreVersion r) (ggDeviceVersion r)
     (ggGroupVersion r) (template r).

Definition map_devices {D E} (f : D → E) (r : t D) : t E :=
  mk (DeviceTaskSummary.map_devices f (taskInfo r)) (group r) (ggGroup r)
     (ggCoreVersion r) (ggDeviceVersion r) (ggGroupVersion r) (template r).
End DeviceAssociationModel.

Abbreviation Task := (DeviceTaskSummary.t Ref).
Abbreviation TaskJson := (DeviceTaskSummary.t (option DeviceItem.t)).
Abbreviation Request := (DeviceAssociationModel.t Ref).
Abbreviation RequestJson := (DeviceAssociationModel.t (option DeviceItem.t)).

(** ** Errors *)

Inductive ErrorKind :=
| ArgumentError   (* raised by an [ow] predicate *)
| TypeError       (* a property of [undefined] was read or written *)
| PlainError.     (* [new Error(message)], or whatever a collaborator throws *)

Record Error := mkError { kind : ErrorKind; message : string }.

Inductive Result (A : Type) :=
| Ok (a : A)
| Throw (e : Error).
Arguments Ok {A}.
Arguments Throw {A}.

(** ** Events and the world *)

(** The links of the chain, in the order the constructor assembles them. *)
Inductive HandlerName :=
| GetThingHandler1
| ExistingAssociationHandler
| ProvisionThingHandler
| GetThingHandler2
| CoreConfigHandler
| GetPrincipalHandler
| CreateGroupVersionHandler
| SaveGroupHandler.

Global Instance HandlerName_eq_dec : EqDecision HandlerName.
Proof. solve_decision. Defined.

Inductive Event :=
| GroupsDaoGet (groupName : string)
| GetGroupInfo (groupId : string)
| GetGroupVersionInfo (groupId versionId : string)
| GetCoreInfo (arn : string)
| GetDeviceInfo (arn : string)
| TemplatesDaoGet (name : string) (versionNo : Z)
| ShortidGenerate
| NewDate
| SaveDeviceAssociationTask (task : TaskJson)
| SendMessage (queueUrl : string) (messageBody : TaskJson) (messageType : string)
| GetDeviceAssociationTask (groupId taskId : string)
| GetDevice (deviceId : string)
| Persist (request : RequestJson)   (* the store write of SaveGroup *)
| Handle (handler : HandlerName) (request : RequestJson).

Record World := mkWorld {
  history : list Event;
  heap : list DeviceItem.t;
  unawaited : list (Result unit)
}.

(** The injected collaborators.  Each answer is a function of the history
    before the call and of the arguments. *)
Record Env := mkEnv {
  deviceAssociationQueue : string;
  groupsDao_get : list Event → string → Result (option GroupItem.t);
  ggUtils_getGroupInfo : list Event → string → Result GG.Group;
  ggUtils_getGroupVersionInfo :
    list Event → string → string → Result GG.GroupVersion;
  ggUtils_getCoreInfo : list Event → string → Result GG.CoreDefinitionVersion;
  ggUtils_getDeviceInfo :
    list Event → string → Result GG.DeviceDefinitionVersion;
  templatesDao_get :
    list Event → string → Z → Result (option TemplateItem.t);
  devicesDao_saveDeviceAssociationTask : list Event → TaskJson → Result unit;
  devicesDao_getDeviceAssociationTask :
    list Event → string → string → Result (option TaskJson);
  devicesDao_getDevice : list Event → string → Result (option DeviceItem.t);
  sqs_sendMessage : list Event → string → TaskJson → string → Result unit;
  shortid_generate : list Event → string;
  new_Date : list Event → Z
}.

(** ** The monad of the service methods *)

Definition M (A : Type) : Type := World → World * Result A.

Global Instance M_ret : MRet M := λ A a w, (w, Ok a).

Global Instance M_bind : MBind M := λ A B f m w,
  match m w with
  | (w', Ok a) => f a w'
  | (w', Throw e) => (w', Throw e)
  end.

Definition throw {A} (e : Error) : M A := λ w, (w, Throw e).

Definition record (ev : Event) (w : World) : World :=
  mkWorld (history w ++ [ev]) (heap w) (unawaited w).

(** An awaited call to a collaborator. *)
Definition call {A} (ev : Event) (answer : list Event → Result A) : M A :=
  λ w, (record ev w, answer (history w)).

(** Reading a property of the object behind [r]. *)
Definition deref (r : Ref) : M DeviceItem.t := λ w,
  match heap w !! r with
  | Some d => (w, Ok d)
  | None => (w, Throw (mkError TypeError "Cannot read properties of undefined"))
  end.

(** A new object. *)
Definition alloc (d : DeviceItem.t) : M Ref := λ w,
  (mkWorld (history w) (heap w ++ [d]) (unawaited w), Ok (length (heap w))).

(** Assigning the properties of the object behind [r]. *)
Definition assign (r : Ref) (f : DeviceItem.t → DeviceItem.t) : M unit := λ w,
  match heap w !! r with
  | Some d => (mkWorld (history w) (<[r := f d]> (heap w)) (unawaited w), Ok tt)
  | None => (w, Throw (mkError TypeError "Cannot set properties of undefined"))
  end.

(** [JSON.stringify]: the objects behind the references, [null] for a
    reference to nothing. *)
Definition stringifyTask (t : Task) : M TaskJson := λ w,
  (w, Ok (DeviceTaskSummary.map_devices (λ r, heap w !! r) t)).

Definition stringifyRequest (h : list DeviceItem.t) (r : Request) : RequestJson :=
  DeviceAssociationModel.map_devices (λ d, h !! d) r.

(** [xs.map(f)] and [for (const x of xs) f(x)] with an effectful [f]. *)
Fixpoint mapM {A B} (f : A → M B) (xs : list A) : M (list B) :=
  match xs with
  | [] => mret []
  | x :: xs' => y ← f x; ys ← mapM f xs'; mret (y :: ys)
  end.

Fixpoint forEach {A} (f : A → M unit) (xs : list A) : M unit :=
  match xs with
  | [] => mret tt
  | x :: xs' => f x;; forEach f xs'
  end.

(** ** The [ow] predicates the service uses

    An [ow] predicate that fails throws an [ArgumentError].  The text of the
    message is abridged; no property below depends on it. *)

Definition nonEmpty (s : string) : bool :=
  match s with
  | EmptyString => false
  | String _ _ => true
  end.

Definition ow_string_nonEmpty (s : string) : M unit :=
  if nonEmpty s then mret tt
  else throw (mkError ArgumentError "Expected string to not be empty").

(** [ow.array.nonEmpty.minLength(1)] and [ow.array.minLength(1)] accept the
    same arrays. *)
Definition ow_array_minLength1 {A} (label : string) (xs : list A) : M unit :=
  match xs with
  | [] => throw (mkError ArgumentError
                   ("Expected array `" ++ label ++ "` to not be empty")%string)
  | _ :: _ => mret tt
  end.

Section DevicesService.

Variable env : Env.

(** [getGroupItem]: an absent group is the error ['NOT_FOUND']; the
    [catch] only logs and throws the error again. *)
Definition getGroupItem (groupName : string) : M GroupItem.t :=
  group ← call (GroupsDaoGet groupName) (λ h, groupsDao_get env h groupName);
  match group with
  | Some g => mret g
  | None => throw (mkError PlainError "NOT_FOUND")
  end.

Definition getTemplateItem (name : string) (versionNo : Z) : M TemplateItem.t :=
  item ← call (TemplatesDaoGet name versionNo)
              (λ h, templatesDao_get env h name versionNo);
  match item with
  | Some i => mret i
  | None => throw (mkError PlainError "NOT_FOUND")
  end.

(** The body of the validation loop. *)
Definition validateDevice (device : Ref) : M unit :=
  d ← deref device;
  ow_string_nonEmpty (DeviceItem.thingName d);;
  ow_string_nonEmpty (DeviceItem.type d);;
  ow_string_nonEmpty (DeviceItem.provisioningTemplate d).

(** [d => ({...d, status: 'Waiting'})].  An element that is not an object
    never gets here: the validation loop has read its [thingName] and
    thrown. *)
Definition copyWaiting (d : Ref) : M Ref :=
  v ← deref d;
  alloc (DeviceItem.with_status Waiting v).

Definition createDeviceAssociationTask
    (groupName : string) (items : list Ref) : M Task :=
  ow_string_nonEmpty groupName;;
  ow_array_minLength1 "Devices" items;;
  forEach validateDevice items;;
  (* ensure the group exists *)
  groupItem ← getGroupItem groupName;
  call (GetGroupInfo (GroupItem.id groupItem))
       (λ h, ggUtils_getGroupInfo env h (GroupItem.id groupItem));;
  taskId ← call ShortidGenerate (λ h, Ok (shortid_generate env h));
  createdAt ← call NewDate (λ h, Ok (new_Date env h));
  updatedAt ← call NewDate (λ h, Ok (new_Date env h));
  devices ← mapM copyWaiting items;
  let taskInfo :=
    DeviceTaskSummary.mk taskId groupName Waiting createdAt updatedAt devices in
  saved ← stringifyTask taskInfo;
  call (SaveDeviceAssociationTask saved)
       (λ h, devicesDao_saveDeviceAssociationTask env h saved);;
  body ← stringifyTask taskInfo;
  call (SendMessage (deviceAssociationQueue env) body "DeviceTaskSummary")
       (λ h, sqs_sendMessage env h (deviceAssociationQueue env) body
               "DeviceTaskSummary");;
  mret taskInfo.

Definition getDeviceAssociationTask
    (groupId taskId : string) : M (option TaskJson) :=
  ow_string_nonEmpty taskId;;
  call (GetDeviceAssociationTask groupId taskId)
       (λ h, devicesDao_getDeviceAssociationTask env h groupId taskId).

Definition getDevice (deviceId : string) : M (option DeviceItem.t) :=
  ow_string_nonEmpty deviceId;;
  call (GetDevice deviceId) (λ h, devicesDao_getDevice env h deviceId).

(** *** The handlers, as the service sees them

    A handler is injected; the service only calls its [handle].  A run of
    [handle] is given the request, the history so far and the heap; it
    yields the events it added, the heap and the request as it left them,
    and whether its promise was fulfilled or rejected. *)
Record HandlerRun := mkRun {
  emitted : list Event;
  heap_after : list DeviceItem.t;
  request_after : Request;
  outcome : Result unit
}.

Definition Handler : Type :=
  Request → list Event → list DeviceItem.t → HandlerRun.

(** [h.handle(request)] as the callee sees it, with the call itself on
    record: the event comes first, then whatever the handler does. *)
Definition invoked (name : HandlerName) (h : Handler) : Handler :=
  λ request past objects,
    let ev := Handle name (stringifyRequest objects request) in
    let run := h request (past ++ [ev]) objects in
    mkRun (ev :: emitted run) (heap_after run) (request_after run) (outcome run).

(** [h.handle(request)] as the service sees it. *)
Definition invoke (name : HandlerName) (h : Handler) (request : Request)
    (w : World) : World * Request * Result unit :=
  let run := invoked name h request (history w) (heap w) in
  (mkWorld (history w ++ emitted run) (heap_after run) (unawaited w),
   request_after run, outcome run).

Variable getThingHandler1 : Handler.
Variable saveGroupHandler : Handler.

(** [Promise.all([a, b, c])]: the three calls are made, in the order of
    the array, before any answer is looked at.  When several reject, the
    embedding reports the first in the order of the array. *)
Definition promiseAll3 {A B C} (a : M A) (b : M B) (c : M C) : M (A * B * C) :=
  λ w,
    let '(w1, ra) := a w in
    let '(w2, rb) := b w1 in
    let '(w3, rc) := c w2 in
    (w3,
     match ra, rb, rc with
     | Ok x, Ok y, Ok z => Ok (x, y, z)
     | Throw e, _, _ => Throw e
     | _, Throw e, _ => Throw e
     | _, _, Throw e => Throw e
     end).

(** [associateDevicesWithGroup], up to the construction of the request.
    [ow(taskInfo, ow.object.nonEmpty)] accepts every summary. *)
Definition associateDevicesWithGroup_resolve (taskInfo : Task) : M Request :=
  ow_string_nonEmpty (DeviceTaskSummary.taskId taskInfo);;
  ow_string_nonEmpty (DeviceTaskSummary.groupName taskInfo);;
  ow_array_minLength1 "Devices" (DeviceTaskSummary.devices taskInfo);;
  (* retrieve the greengrass info *)
  group ← getGroupItem (DeviceTaskSummary.groupName taskInfo);
  ggGroup ← call (GetGroupInfo (GroupItem.id group))
                 (λ h, ggUtils_getGroupInfo env h (GroupItem.id group));
  ggGroupVersion ←
    call (GetGroupVersionInfo (GG.Id ggGroup) (GG.LatestVersion ggGroup))
         (λ h, ggUtils_getGroupVersionInfo env h
                 (GG.Id ggGroup) (GG.LatestVersion ggGroup));
  '(ggCoreVersion, ggDeviceVersion, template) ←
    promiseAll3
      (call (GetCoreInfo (GG.CoreDefinitionVersionArn ggGroupVersion))
            (λ h, ggUtils_getCoreInfo env h
                    (GG.CoreDefinitionVersionArn ggGroupVersion)))
      (call (GetDeviceInfo (GG.DeviceDefinitionVersionArn ggGroupVersion))
            (λ h, ggUtils_getDeviceInfo env h
                    (GG.DeviceDefinitionVersionArn ggGroupVersion)))
      (getTemplateItem (GroupItem.templateName group)
                       (GroupItem.templateVersionNo group));
  (* mark as in progress *)
  let taskInfo := DeviceTaskSummary.with_status InProgress taskInfo in
  forEach (λ d, assign d (DeviceItem.with_status InProgress))
          (DeviceTaskSummary.devices taskInfo);;
  (* execute the chain *)
  mret (DeviceAssociationModel.mk taskInfo group ggGroup ggCoreVersion
          ggDeviceVersion ggGroupVersion template).

(** The guard of the [catch] block. *)
Definition recordFailure (err : Error) (request : Request) : Request :=
  if decide (GroupItem.taskStatus (DeviceAssociationModel.group request)
             = Some Failure)
  then request
  else DeviceAssociationModel.with_group
         (GroupItem.fail (message err) (DeviceAssociationModel.group request))
         request.

(** [associateDevicesWithGroup], the [try]/[catch] around the chain.  The
    call of [saveGroupHandler.handle] in the [catch] block is not awaited. *)
Definition associateDevicesWithGroup_execute (request : Request) : M unit :=
  λ w,
    let '(w1, request1, r) := invoke GetThingHandler1 getThingHandler1 request w in
    match r with
    | Ok _ => (w1, Ok tt)
    | Throw err =>
        (* something unexpected went wrong with the pipeline *)
        let request2 := recordFailure err request1 in
        let '(w2, _, r2) := invoke SaveGroupHandler saveGroupHandler request2 w1 in
        (mkWorld (history w2) (heap w2) (unawaited w2 ++ [r2]), Ok tt)
    end.

Definition associateDevicesWithGroup (taskInfo : Task) : M unit :=
  request ← associateDevicesWithGroup_resolve taskInfo;
  associateDevicesWithGroup_execute request.

End DevicesService.



(** ** The handler chain

    The handler classes (handlers/getThing.handler.ts and its siblings,
    SaveGroup among them) are not among the sources.  The sources have the
    constructor, whose [setNext] calls fix the order of the links, and the
    two calls of [handle] in [associateDevicesWithGroup]. *)
Section HandlerChain.

(** The store behind SaveGroup. *)
Variable persist : list Event → RequestJson → Result unit.

(** Modelled from the spec: how a handler goes on after its own work, the
    handler classes being absent.  Section 4.2: a handler "must either call
    [next.handle(request)] to continue the chain or stop propagation [...]
    while still invoking SaveGroup"; "any unexpected exception propagates up
    to the orchestrator's top-level guard". *)
Inductive Verdict :=
| CallNext
| StopAndSave
| Raise (e : Error).

(** Modelled from the spec: what a handler writes to the shared request,
    the handler classes being absent.  Section 4.2: "a handler that fails a
    specific device sets that device's status to Failure with a message";
    "a handler that encounters a condition invalidating the whole task sets
    [group.taskStatus = Failure]".  The status of the task itself is written
    by the orchestrator and by SaveGroup, "the single place that writes
    final per-device and per-task status". *)
Record Findings := mkFindings {
  failedDevices : list (Ref * string);
  failedTask : option string
}.

(** Modelled from the spec: a handler's own work, the handler classes being
    absent.  Section 4.2: it "receives the shared [AssociationRequest]",
    reads it, and comes to its findings and to a verdict. *)
Definition Body : Type :=
  Request → list DeviceItem.t → Findings * Verdict.




Definition finalStatus (g : GroupItem.t) : Status :=
  if decide (GroupItem.taskStatus g = Some Failure) then Failure else Success.

Definition finalise (request : Request) : Request :=
  DeviceAssociationModel.mk
    (DeviceTaskSummary.with_status
       (finalStatus (DeviceAssociationModel.group request))
       (DeviceAssociationModel.taskInfo request))
    (DeviceAssociationModel.group request)
    (DeviceAssociationModel.ggGroup request)
    (DeviceAssociationModel.ggCoreVersion request)
    (DeviceAssociationModel.ggDeviceVersion request)
    (DeviceAssociationModel.ggGroupVersion request)
    (DeviceAssociationModel.template request).



(** Modelled from the spec: the seven links ahead of SaveGroup, one body
    for each handler class that is absent. *)
Record Bodies := mkBodies {
  getThing1 : Body;
  existingAssociation : Body;
  provisionThing : Body;
  getThing2 : Body;
  coreConfig : Body;
  getPrincipal : Body;
  createGroupVersion : Body
}.


Definition bodies_of (b : Bodies) : list Body :=
  [ getThing1 b; existingAssociation b; provisionThing b; getThing2 b;
    coreConfig b; getPrincipal b; createGroupVersion b ].

End HandlerChain.

(** ** Inputs *)

(** The three properties the validation loop checks. *)
Definition wellFormed (d : DeviceItem.t) : bool :=
  nonEmpty (DeviceItem.thingName d)
  && nonEmpty (DeviceItem.type d)
  && nonEmpty (DeviceItem.provisioningTemplate d).

(** Every element of the array is an object: the argument has the type
    [DeviceItem[]]. *)
Definition allObjects (h : list DeviceItem.t) (items : list Ref) : Prop :=
  Forall (λ r, is_Some (h !! r)) items.

Definition validInput (h : list DeviceItem.t)
    (groupName : string) (items : list Ref) : Prop :=
  groupName ≠ "" ∧ items ≠ [] ∧
  Forall (λ r, ∃ d, h !! r = Some d ∧ wellFormed d = true) items.

Definition invalidInput (h : list DeviceItem.t)
    (groupName : string) (items : list Ref) : Prop :=
  groupName = "" ∨ items = [] ∨
  Exists (λ r, ∃ d, h !! r = Some d ∧
                (DeviceItem.thingName d = "" ∨ DeviceItem.type d = "" ∨
                 DeviceItem.provisioningTemplate d = "")) items.


(** ** Observing a run *)

(** The events a run added to the history. *)
Definition events_since (w w' : World) : list Event :=
  drop (length (history w)) (history w').

Definition isPublish (ev : Event) : bool :=
  match ev with
  | SendMessage _ _ _ => true
  | _ => false
  end.

Definition isHandle (ev : Event) : bool :=
  match ev with
  | Handle _ _ => true
  | _ => false
  end.


(** The calls [createDeviceAssociationTask] makes, once the input is
    accepted, before it builds the array of devices. *)
Definition prelude (groupName : string) (g : GroupItem.t) : list Event :=
  [ GroupsDaoGet groupName; GetGroupInfo (GroupItem.id g);
    ShortidGenerate; NewDate; NewDate ].

(** The summary it builds: the id and the two dates are the answers of
    [shortid.generate()] and of the two [new Date()] at their place in the
    history; the devices are [n] new objects from [base] on. *)
Definition createdTask (env : Env) (past : list Event)
    (groupName : string) (g : GroupItem.t) (base n : nat) : Task :=
  let h2 := past ++ [GroupsDaoGet groupName; GetGroupInfo (GroupItem.id g)] in
  DeviceTaskSummary.mk
    (shortid_generate env h2)
    groupName
    Waiting
    (new_Date env (h2 ++ [ShortidGenerate]))
    (new_Date env (h2 ++ [ShortidGenerate; NewDate]))
    (seq base n).

(** The same summary as the store and the queue receive it: every device
    is the input item behind the reference with its status replaced. *)
Definition createdJson (env : Env) (w : World)
    (groupName : string) (g : GroupItem.t) (items : list Ref) : TaskJson :=
  let t := createdTask env (history w) groupName g
                       (length (heap w)) (length items) in
  DeviceTaskSummary.mk
    (DeviceTaskSummary.taskId t) (DeviceTaskSummary.groupName t)
    (DeviceTaskSummary.status t)
    (DeviceTaskSummary.createdAt t) (DeviceTaskSummary.updatedAt t)
    ((λ r, DeviceItem.with_status Waiting <$> heap w !! r) <$> items).

(** A computation that leaves every existing object as it is. *)
Definition keepsObjects {A} (m : M A) : Prop :=
  ∀ w, heap w `prefix_of` heap (m w).1.

(** The object behind [ref] is marked as in progress. *)
Definition inProgressAt (h : list DeviceItem.t) (ref : Ref) : Prop :=
  ∃ d, h !! ref = Some d ∧ DeviceItem.status d = Some InProgress.

(** A computation that only adds to the history, and no call of a handler. *)
Definition callsNoHandler {A} (m : M A) : Prop :=
  ∀ w, ∃ evs, history (m w).1 = history w ++ evs
              ∧ Forall (λ ev, isHandle ev = false) evs.

(** The six lookups of [associateDevicesWithGroup], in the order they are
    started. *)
Definition lookups (groupName : string) (g : GroupItem.t) (gg : GG.Group)
    (gv : GG.GroupVersion) : list Event :=
  [ GroupsDaoGet groupName;
    GetGroupInfo (GroupItem.id g);
    GetGroupVersionInfo (GG.Id gg) (GG.LatestVersion gg);
    GetCoreInfo (GG.CoreDefinitionVersionArn gv);
    GetDeviceInfo (GG.DeviceDefinitionVersionArn gv);
    TemplatesDaoGet (GroupItem.templateName g) (GroupItem.templateVersionNo g) ].

(** The calls of the three lookups made under [Promise.all]. *)
Definition definitionLookups (evs : list Event) : list Event :=
  List.filter (λ ev, match ev with
                     | GetCoreInfo _ | GetDeviceInfo _ | TemplatesDaoGet _ _ => true
                     | _ => false
                     end) evs.


(** The task of the request is past [Waiting]; its status is final. *)
Definition started (r : RequestJson) : Prop :=
  DeviceTaskSummary.status (DeviceAssociationModel.taskInfo r) ≠ Waiting.

Definition settled (r : RequestJson) : Prop :=
  DeviceTaskSummary.status (DeviceAssociationModel.taskInfo r) = Success ∨
  DeviceTaskSummary.status (DeviceAssociationModel.taskInfo r) = Failure.

Definition isStoreWrite (ev : Event) : bool :=
  match ev with
  | SaveDeviceAssociationTask _ => true
  | _ => false
  end.

(** A computation that leaves the objects alone, whatever its outcome. *)
Definition keepsHeap {A} (m : M A) : Prop :=
  ∀ w, heap (m w).1 = heap w.

(** A computation that, started where all of [devices] are objects, has
    changed no object when it throws. *)
Definition throwsBeforeMarking {A} (devices : list Ref) (m : M A) : Prop :=
  ∀ w, allObjects (heap w) devices →
       ∀ e, (m w).2 = Throw e → heap (m w).1 = heap w.

(** The preconditions [associateDevicesWithGroup] checks. *)
Definition deliverable (taskInfo : Task) : Prop :=
  DeviceTaskSummary.taskId taskInfo ≠ "" ∧
  DeviceTaskSummary.groupName taskInfo ≠ "" ∧
  DeviceTaskSummary.devices taskInfo ≠ [].

(** ** Sample collaborators and inputs *)

Definition sampleDevice : DeviceItem.t :=
  DeviceItem.mk "t1" "core" "tmpl-a" None None.

Definition sampleGroup (groupName : string) : GroupItem.t :=
  GroupItem.mk "gg-group-1" groupName "template-1" 1 None None.

(** Collaborators that know every group and template; the answer of the
    group version lookup and of the task store are left open. *)
Definition sampleEnv (groupVersion : GG.GroupVersion)
    (save : Result unit) : Env :=
  {| deviceAssociationQueue := "device-associations";
     groupsDao_get := λ _ groupName, Ok (Some (sampleGroup groupName));
     ggUtils_getGroupInfo := λ _ groupId, Ok (GG.mkGroup groupId "v1");
     ggUtils_getGroupVersionInfo := λ _ _ _, Ok groupVersion;
     ggUtils_getCoreInfo := λ _ arn, Ok (GG.mkCore arn);
     ggUtils_getDeviceInfo := λ _ arn, Ok (GG.mkDevice arn);
     templatesDao_get := λ _ name versionNo,
       Ok (Some (TemplateItem.mk name versionNo));
     devicesDao_saveDeviceAssociationTask := λ _ _, save;
     devicesDao_getDeviceAssociationTask := λ _ _ _, Ok None;
     devicesDao_getDevice := λ _ _, Ok None;
     sqs_sendMessage := λ _ _ _ _, Ok tt;
     shortid_generate := λ _, "PPBqWA9";
     new_Date := λ past, Z.of_nat (length past) |}.

Definition groupVersionA : GG.GroupVersion :=
  GG.mkGroupVersion "arn:core:A" "arn:device:A".

Definition groupVersionB : GG.GroupVersion :=
  GG.mkGroupVersion "arn:core:B" "arn:device:A".

Definition storeDown : Result unit :=
  Throw (mkError PlainError "store unavailable").

Definition goodEnv : Env := sampleEnv groupVersionA (Ok tt).
Definition storeDownEnv : Env := sampleEnv groupVersionA storeDown.

(** One device object, nothing on record yet. *)
Definition world0 : World := mkWorld [] [sampleDevice] [].

(** An item that carries a status and a message from an earlier attempt. *)
Definition staleDevice : DeviceItem.t :=
  DeviceItem.mk "t2" "device" "tmpl-b" (Some Failure) (Some "earlier attempt").

Definition staleWorld : World := mkWorld [] [staleDevice] [].

(** A task as the queue consumer receives it. *)
Definition sampleTask : Task :=
  DeviceTaskSummary.mk "PPBqWA9" "group-1" Waiting 5 6 [0%nat].

(** A handler that does nothing, and one that throws. *)
Definition quietHandler : Handler :=
  λ request _ objects, mkRun [] objects request (Ok tt).

Definition throwingHandler (msg : string) : Handler :=
  λ request _ objects, mkRun [] objects request (Throw (mkError PlainError msg)).

(** A handler that records a failure of the whole task on the group and
    then throws something else. *)
Definition failThenThrow (recorded thrown : string) : Handler :=
  λ request _ objects,
    mkRun [] objects
          (DeviceAssociationModel.with_group
             (GroupItem.fail recorded (DeviceAssociationModel.group request))
             request)
          (Throw (mkError PlainError thrown)).

(** The world and the request [associateDevicesWithGroup] reaches the chain
    with, from [world0] and [sampleTask] under [goodEnv]. *)
Definition world1 : World :=
  mkWorld (lookups "group-1" (sampleGroup "group-1")
                   (GG.mkGroup "gg-group-1" "v1") groupVersionA)
          [DeviceItem.with_status InProgress sampleDevice] [].

Definition sampleRequest : Request :=
  DeviceAssociationModel.mk
    (DeviceTaskSummary.with_status InProgress sampleTask)
    (sampleGroup "group-1") (GG.mkGroup "gg-group-1" "v1")
    (GG.mkCore "arn:core:A") (GG.mkDevice "arn:device:A")
    groupVersionA (TemplateItem.mk "template-1" 1).



(** * The REST application (app.ts)

    The middlewares that [server.setConfig] installs, in their order, as
    functions of the request and of the response headers.  [bodyParser.json]
    and [setVersionByAcceptHeader], which sit between the second and the
    third, are library middlewares: [installed] takes them as parameters.
    [cors], which comes last, is not embedded. *)
Module App.

Record Request := mkRequest {
  method : string;
  url : string;
  headers : gmap string string
}.

(** The headers of the response, under their lower-case names, as Node
    keeps them: [getHeader] and [setHeader] ignore the case of the name. *)
Abbreviation Response := (gmap string string).

(** [xs.includes(x)] for a header value that may be [undefined]. *)
Definition includes (xs : list string) (x : option string) : bool :=
  match x with
  | Some s => bool_decide (s ∈ xs)
  | None => false
  end.

(** [res.setHeader(name, value)]: Node throws on the value [undefined]. *)
Definition setHeader (name : string) (value : option string)
    (res : Response) : Result Response :=
  match value with
  | Some v => Ok (<[name := v]> res)
  | None => Throw (mkError TypeError "Invalid value for header")
  end.

(** A middleware either calls [next()], with the request and the response
    as it leaves them, or ends the request with an error ([next(err)], or a
    response of its own). *)
Definition Middleware : Type := Request → Response → Result (Request * Response).

Section Configured.

(** [asArray(config.get('supportedApiVersions'))], [DEFAULT_MIME_TYPE] and
    [normalisePath] of @cdf/express-middleware, and the configured
    [customDomain.basePath], if there is one. *)
Variable supportedVersions : list string.
Variable DEFAULT_MIME_TYPE : string.
Variable basePath : option string.
Variable normalisePath : string → string → string.

(** Only process requests that we can support the requested accept header:
    if not recognised, default to v1.  Either way [next()] is called. *)
Definition onlySupportedVersions (req : Request) : Request :=
  if includes supportedVersions (headers req !! "accept")
     || bool_decide (method req = "OPTIONS")
  then req
  else mkRequest (method req) (url req)
         (<["content-type" := DEFAULT_MIME_TYPE]>
            (<["accept" := DEFAULT_MIME_TYPE]> (headers req))).

Definition removeBasePath (req : Request) : Request :=
  match basePath with
  | Some basePathToRemove =>
      mkRequest (method req) (normalisePath (url req) basePathToRemove)
                (headers req)
  | None => req
  end.

(** Default the response's headers. *)
Definition defaultResponseHeaders (req : Request) (res : Response) :
    Result Response :=
  match res !! "content-type" with
  | None => setHeader "content-type" (headers req !! "accept") res
  | Some _ => Ok res
  end.

(** The three in the order they are installed. *)
Definition configured (req : Request) (res : Response) :
    Result (Request * Response) :=
  let req := removeBasePath (onlySupportedVersions req) in
  match defaultResponseHeaders req res with
  | Ok res' => Ok (req, res')
  | Throw e => Throw e
  end.

(** The library middlewares [bodyParser.json({ type: supportedVersions })]
    and [setVersionByAcceptHeader()]. *)
Variable bodyParser_json : Middleware.
Variable setVersionByAcceptHeader : Middleware.

(** The five middlewares up to the defaulting of the response's headers, in
    the order [server.setConfig] installs them: the two library middlewares
    run between [removeBasePath] and [defaultResponseHeaders], and each can
    end the request. *)
Definition installed (req : Request) (res : Response) :
    Result (Request * Response) :=
  let req := removeBasePath (onlySupportedVersions req) in
  match bodyParser_json req res with
  | Throw e => Throw e
  | Ok (req, res) =>
      match setVersionByAcceptHeader req res with
      | Throw e => Throw e
      | Ok (req, res) =>
          match defaultResponseHeaders req res with
          | Ok res' => Ok (req, res')
          | Throw e => Throw e
          end
      end
  end.

End Configured.

End App.

(** * The deployment templates service (template.service.ts)

    [DeploymentTemplatesService] over its injected dao.  As for the devices
    service, every call that leaves the service is on record and the dao
    answers from the calls so far and the arguments.  The model class
    (template.model.ts) is not among the sources: the record has the
    properties the service reads or writes. *)
Module Templates.

Module Source.
Record t := mk {
  type : string;
  bucket : string;
  prefix : string
}.
End Source.

Module Model.
Record t := mk {
  name : string;
  type : string;
  source : Source.t;
  versionNo : Z;
  createdAt : Z;
  updatedAt : Z;
  enabled : option bool
}.
End Model.

Inductive Call :=
| DaoGet (name : string)
| DaoSave (template : Model.t)
| DaoList
| DaoDelete (name : string)
| NewDate.

Record Dao := mkDao {
  dao_get : list Call → string → Result (option Model.t);
  dao_save : list Call → Model.t → Result unit;
  dao_list : list Call → Result (list Model.t);
  dao_delete : list Call → string → Result unit;
  new_Date : list Call → Z
}.

Definition T (A : Type) : Type := list Call → list Call * Result A.

Global Instance T_ret : MRet T := λ A a past, (past, Ok a).

Global Instance T_bind : MBind T := λ A B f m past,
  match m past with
  | (past', Ok a) => f a past'
  | (past', Throw e) => (past', Throw e)
  end.

Definition throw {A} (e : Error) : T A := λ past, (past, Throw e).

Definition call {A} (c : Call) (answer : list Call → Result A) : T A :=
  λ past, (past ++ [c], answer past).

Definition ow_string_nonEmpty (s : string) : T unit :=
  if nonEmpty s then mret tt
  else throw (mkError ArgumentError "Expected string to not be empty").

(** [a ?? b] *)
Definition nullish {A} (a : option A) (b : option A) : option A :=
  match a with
  | Some _ => a
  | None => b
  end.

(** The numbers of the program are doubles; [versionNo] holds an integral
    one.  An integer of magnitude up to [2^53] is a double; a larger one is
    rounded to the nearest multiple of the spacing of the doubles around it,
    a tie going to the even multiple. *)
Definition nearest_double (x : Z) : Z :=
  if Z.abs x <=? 2 ^ 53 then x
  else
    let ulp := 2 ^ (Z.log2 (Z.abs x) - 52) in
    let q := x `div` ulp in
    let r := x `mod` ulp in
    if 2 * r <? ulp then q * ulp
    else if ulp <? 2 * r then (q + 1) * ulp
    else if Z.even q then q * ulp else (q + 1) * ulp.

(** [a + b] on integral numbers. *)
Definition add (a b : Z) : Z := nearest_double (a + b).

Section Service.

Variable deploymentTemplatesDao : Dao.

(** [ow(template, 'Template Information', ow.object.nonEmpty)] accepts every
    model. *)
Definition save (template : Model.t) : T unit :=
  ow_string_nonEmpty (Model.name template);;
  ow_string_nonEmpty (Model.type template);;
  ow_string_nonEmpty (Source.type (Model.source template));;
  ow_string_nonEmpty (Source.bucket (Model.source template));;
  ow_string_nonEmpty (Source.prefix (Model.source template));;
  existingTemplate ←
    call (DaoGet (Model.name template))
         (λ past, dao_get deploymentTemplatesDao past (Model.name template));
  (* set remaining data *)
  now ← call NewDate (λ past, Ok (new_Date deploymentTemplatesDao past));
  let template :=
    match existingTemplate with
    | Some existingTemplate =>
        Model.mk (Model.name template) (Model.type template)
                 (Model.source template)
                 (add (Model.versionNo existingTemplate) 1)
                 (Model.createdAt existingTemplate)
                 now
                 (nullish (Model.enabled existingTemplate)
                          (Model.enabled existingTemplate))
    | None =>
        Model.mk (Model.name template) (Model.type template)
                 (Model.source template)
                 1
                 now
                 now
                 (nullish (Model.enabled template) (Some true))
    end in
  call (DaoSave template) (λ past, dao_save deploymentTemplatesDao past template).

Definition get (name : string) : T Model.t :=
  ow_string_nonEmpty name;;
  template ← call (DaoGet name) (λ past, dao_get deploymentTemplatesDao past name);
  match template with
  | None => throw (mkError PlainError "NOT_FOUND")
  | Some t => mret t
  end.

Definition list : T (list Model.t) :=
  (* retrieve *)
  call DaoList (λ past, dao_list deploymentTemplatesDao past).

Definition delete (name : string) : T unit :=
  ow_string_nonEmpty name;;
  call (DaoDelete name) (λ past, dao_delete deploymentTemplatesDao past name).

End Service.

End Templates.

(** ** More sample collaborators *)

Definition withGroupsDao
    (get : list Event → string → Result (option GroupItem.t)) (env : Env) : Env :=
  mkEnv (deviceAssociationQueue env) get
        (ggUtils_getGroupInfo env) (ggUtils_getGroupVersionInfo env)
        (ggUtils_getCoreInfo env) (ggUtils_getDeviceInfo env)
        (templatesDao_get env)
        (devicesDao_saveDeviceAssociationTask env)
        (devicesDao_getDeviceAssociationTask env) (devicesDao_getDevice env)
        (sqs_sendMessage env) (shortid_generate env) (new_Date env).

Definition withGroupInfo
    (getGroupInfo : list Event → string → Result GG.Group) (env : Env) : Env :=
  mkEnv (deviceAssociationQueue env) (groupsDao_get env)
        getGroupInfo (ggUtils_getGroupVersionInfo env)
        (ggUtils_getCoreInfo env) (ggUtils_getDeviceInfo env)
        (templatesDao_get env)
        (devicesDao_saveDeviceAssociationTask env)
        (devicesDao_getDeviceAssociationTask env) (devicesDao_getDevice env)
        (sqs_sendMessage env) (shortid_generate env) (new_Date env).

Definition withTemplatesDao
    (get : list Event → string → Z → Result (option TemplateItem.t))
    (env : Env) : Env :=
  mkEnv (deviceAssociationQueue env) (groupsDao_get env)
        (ggUtils_getGroupInfo env) (ggUtils_getGroupVersionInfo env)
        (ggUtils_getCoreInfo env) (ggUtils_getDeviceInfo env)
        get
        (devicesDao_saveDeviceAssociationTask env)
        (devicesDao_getDeviceAssociationTask env) (devicesDao_getDevice env)
        (sqs_sendMessage env) (shortid_generate env) (new_Date env).

Definition withSqs
    (send : list Event → string → TaskJson → string → Result unit)
    (env : Env) : Env :=
  mkEnv (deviceAssociationQueue env) (groupsDao_get env)
        (ggUtils_getGroupInfo env) (ggUtils_getGroupVersionInfo env)
        (ggUtils_getCoreInfo env) (ggUtils_getDeviceInfo env)
        (templatesDao_get env)
        (devicesDao_saveDeviceAssociationTask env)
        (devicesDao_getDeviceAssociationTask env) (devicesDao_getDevice env)
        send (shortid_generate env) (new_Date env).

Definition queueDown : Error := mkError PlainError "queue unavailable".
Definition controlPlaneDown : Error := mkError PlainError "control plane unavailable".

Definition unknownGroupEnv : Env := withGroupsDao (λ _ _, Ok None) goodEnv.
Definition groupStoreDownEnv : Env :=
  withGroupsDao (λ _ _, Throw (mkError PlainError "group store unavailable")) goodEnv.
Definition controlPlaneDownEnv : Env :=
  withGroupInfo (λ _ _, Throw controlPlaneDown) goodEnv.
Definition unknownTemplateEnv : Env := withTemplatesDao (λ _ _ _, Ok None) goodEnv.
Definition queueDownEnv : Env := withSqs (λ _ _ _ _, Throw queueDown) goodEnv.

(** The summary [createDeviceAssociationTask] returns from [world0] under
    [goodEnv], as the store and the queue receive it. *)
Definition sampleJson : TaskJson :=
  DeviceTaskSummary.mk "PPBqWA9" "group-1" Waiting 3 4
    [Some (DeviceItem.with_status Waiting sampleDevice)].

(** ** Samples for the application and for the templates service *)

Definition v1Mime : string := "application/vnd.aws-cdf-v1.0+json".
Definition v2Mime : string := "application/vnd.aws-cdf-v2.0+json".

Definition sampleVersions : list string := [v1Mime; v2Mime].

Definition xmlRequest : App.Request :=
  App.mkRequest "GET" "/devices/t1" {["accept" := "text/xml"]}.

(** A library middleware that calls [next()] and touches nothing. *)
Definition passThrough : App.Middleware := λ req res, Ok (req, res).

Definition bareOptionsRequest : App.Request :=
  App.mkRequest "OPTIONS" "/devices/t1" ∅.

(** The five properties [save] checks are all non-empty. *)
Definition complete (t : Templates.Model.t) : Prop :=
  Templates.Model.name t ≠ "" ∧
  Templates.Model.type t ≠ "" ∧
  Templates.Source.type (Templates.Model.source t) ≠ "" ∧
  Templates.Source.bucket (Templates.Model.source t) ≠ "" ∧
  Templates.Source.prefix (Templates.Model.source t) ≠ "".

Definition sampleSource : Templates.Source.t :=
  Templates.Source.mk "s3" "my-bucket" "templates/".

(** A template as a caller may send it, with bookkeeping of its own. *)
Definition sampleTemplate : Templates.Model.t :=
  Templates.Model.mk "tmpl-a" "agentbased" sampleSource 40 7 8 (Some false).

Definition storedTemplate : Templates.Model.t :=
  Templates.Model.mk "tmpl-a" "agentless" sampleSource 3 100 200 (Some true).

Definition sampleDao (stored : option Templates.Model.t) : Templates.Dao :=
  {| Templates.dao_get := λ _ _, Ok stored;
     Templates.dao_save := λ _ _, Ok tt;
     Templates.dao_list := λ _, Ok (option_list stored);
     Templates.dao_delete := λ _ _, Ok tt;
     Templates.new_Date := λ past, 1000 + Z.of_nat (length past) |}.

Definition storeDownError : Error := mkError PlainError "store unavailable".

Definition downDao : Templates.Dao :=
  Templates.mkDao (λ _ _, Throw storeDownError) (λ _ _, Ok tt)
                  (λ _, Ok []) (λ _ _, Ok tt) (λ _, 0).
(** ** Running the monad *)

Lemma run_bind {A B} (m : M A) (f : A → M B) (w : World) :
  (m ≫= f) w =
  match m w with
  | (w', Ok a) => f a w'
  | (w', Throw e) => (w', Throw e)
  end.
Proof. reflexivity. Qed.

Lemma run_ret {A} (a : A) (w : World) : (mret a : M A) w = (w, Ok a).
Proof. reflexivity. Qed.

Lemma nonEmpty_false (s : string) : nonEmpty s = false ↔ s = "".
Proof. destruct s; simpl; split; congruence. Qed.

Lemma nonEmpty_true (s : string) : nonEmpty s = true ↔ s ≠ "".
Proof. destruct s; simpl; split; congruence. Qed.

Lemma ow_string_nonEmpty_ok (s : string) (w : World) :
  nonEmpty s = true → ow_string_nonEmpty s w = (w, Ok tt).
Proof. unfold ow_string_nonEmpty. now intros ->. Qed.

Lemma ow_string_nonEmpty_fail (s : string) (w : World) :
  nonEmpty s = false →
  ∃ e, ow_string_nonEmpty s w = (w, Throw e) ∧ kind e = ArgumentError.
Proof. unfold ow_string_nonEmpty. intros ->. now eexists. Qed.

Lemma validInput_allObjects h groupName items :
  validInput h groupName items → allObjects h items.
Proof.
  intros (_ & _ & Hall). unfold allObjects.
  eapply Forall_impl; [exact Hall|]. intros r (d & -> & _). by eexists.
Qed.

(** ** The validation loop *)

Lemma validateDevice_ok (r : Ref) (d : DeviceItem.t) (w : World) :
  heap w !! r = Some d → wellFormed d = true →
  validateDevice r w = (w, Ok tt).
Proof.
  intros Hr Hd. unfold wellFormed in Hd.
  apply andb_prop in Hd as [Hd Hp]. apply andb_prop in Hd as [Hn Ht].
  unfold validateDevice. rewrite run_bind. unfold deref. rewrite Hr.
  rewrite run_bind, (ow_string_nonEmpty_ok _ _ Hn).
  rewrite run_bind, (ow_string_nonEmpty_ok _ _ Ht).
  by apply ow_string_nonEmpty_ok.
Qed.

Lemma validateDevice_fail (r : Ref) (d : DeviceItem.t) (w : World) :
  heap w !! r = Some d → wellFormed d = false →
  ∃ e, validateDevice r w = (w, Throw e) ∧ kind e = ArgumentError.
Proof.
  intros Hr Hd. unfold validateDevice. rewrite run_bind. unfold deref. rewrite Hr.
  rewrite run_bind.
  destruct (nonEmpty (DeviceItem.thingName d)) eqn:Hn.
  2:{ destruct (ow_string_nonEmpty_fail _ w Hn) as (e & -> & He). eauto. }
  rewrite (ow_string_nonEmpty_ok _ _ Hn), run_bind.
  destruct (nonEmpty (DeviceItem.type d)) eqn:Ht.
  2:{ destruct (ow_string_nonEmpty_fail _ w Ht) as (e & -> & He). eauto. }
  rewrite (ow_string_nonEmpty_ok _ _ Ht).
  apply ow_string_nonEmpty_fail.
  unfold wellFormed in Hd. rewrite Hn, Ht in Hd. exact Hd.
Qed.

Lemma validation_loop_ok (items : list Ref) (w : World) :
  Forall (λ r, ∃ d, heap w !! r = Some d ∧ wellFormed d = true) items →
  forEach validateDevice items w = (w, Ok tt).
Proof.
  induction 1 as [|r items (d & Hr & Hd) _ IH]; [reflexivity|].
  simpl. rewrite run_bind, (validateDevice_ok r d w Hr Hd). exact IH.
Qed.

Lemma validation_loop_fail (items : list Ref) (w : World) :
  allObjects (heap w) items →
  Exists (λ r, ∃ d, heap w !! r = Some d ∧ wellFormed d = false) items →
  ∃ e, forEach validateDevice items w = (w, Throw e) ∧ kind e = ArgumentError.
Proof.
  intros Hobj. induction Hobj as [|r items [d Hr] Hobj IH]; intros Hex.
  - inversion Hex.
  - simpl. rewrite run_bind.
    destruct (wellFormed d) eqn:Hd.
    + rewrite (validateDevice_ok r d w Hr Hd). apply IH.
      inversion Hex as [? ? (d' & Hr' & Hd')|]; subst; [|assumption].
      congruence.
    + destruct (validateDevice_fail r d w Hr Hd) as (e & -> & He). eauto.
Qed.

Lemma empty_field_not_wellFormed (d : DeviceItem.t) :
  DeviceItem.thingName d = "" ∨ DeviceItem.type d = "" ∨
  DeviceItem.provisioningTemplate d = "" →
  wellFormed d = false.
Proof.
  unfold wellFormed. intros [H|[H|H]]; rewrite H; simpl;
    rewrite ?andb_false_r; reflexivity.
Qed.

Lemma validateDevice_dangling (r : Ref) (w : World) :
  heap w !! r = None → ∃ e, validateDevice r w = (w, Throw e).
Proof.
  intros Hr. unfold validateDevice. rewrite run_bind. unfold deref.
  rewrite Hr. eauto.
Qed.

(** The loop changes nothing, and passes only arrays of well-formed
    objects. *)
Lemma validation_loop_inv (items : list Ref) (w : World) :
  (forEach validateDevice items w).1 = w ∧
  ((forEach validateDevice items w).2 = Ok tt →
   Forall (λ r, ∃ d, heap w !! r = Some d ∧ wellFormed d = true) items).
Proof.
  induction items as [|r items [IHw IHok]]; [by split; [|constructor]|].
  simpl. rewrite run_bind.
  destruct (heap w !! r) as [d|] eqn:Hr.
  - destruct (wellFormed d) eqn:Hd.
    + rewrite (validateDevice_ok r d w Hr Hd). split; [exact IHw|].
      intros Hok. constructor; eauto.
    + destruct (validateDevice_fail r d w Hr Hd) as (e & -> & _). by split.
  - destruct (validateDevice_dangling r w Hr) as (e & ->). by split.
Qed.

(** ** [createDeviceAssociationTask] *)

Lemma events_since_app (w w' : World) (evs : list Event) :
  history w' = history w ++ evs → events_since w w' = evs.
Proof. unfold events_since. intros ->. by rewrite drop_app_length. Qed.

Lemma ow_array_minLength1_ok {A} (label : string) (xs : list A) (w : World) :
  xs ≠ [] → ow_array_minLength1 label xs w = (w, Ok tt).
Proof. by destruct xs. Qed.

Lemma objects_of_valid (h : list DeviceItem.t) (items : list Ref) :
  Forall (λ r, ∃ d, h !! r = Some d ∧ wellFormed d = true) items →
  ∃ vals, Forall2 (λ r d, h !! r = Some d) items vals
          ∧ Forall (λ d, wellFormed d = true) vals.
Proof.
  induction 1 as [|r items (d & Hr & Hd) _ (vals & H2 & Hv)].
  - exists []. split; constructor.
  - exists (d :: vals). split; constructor; assumption.
Qed.

Lemma copy_loop_run (items : list Ref) (vals : list DeviceItem.t) (w : World) :
  Forall2 (λ r d, heap w !! r = Some d) items vals →
  mapM copyWaiting items w =
  (mkWorld (history w) (heap w ++ (DeviceItem.with_status Waiting <$> vals))
           (unawaited w),
   Ok (seq (length (heap w)) (length items))).
Proof.
  revert vals w. induction items as [|r items IH]; intros vals w H2.
  - inversion H2; subst. simpl. rewrite run_ret, app_nil_r. by destruct w.
  - inversion H2 as [|? d ? vals' Hr H2']; subst. simpl mapM.
    rewrite run_bind. unfold copyWaiting at 1. rewrite run_bind.
    unfold deref. rewrite Hr. unfold alloc at 1. simpl.
    rewrite run_bind.
    rewrite (IH vals').
    + simpl. rewrite run_ret. rewrite <- app_assoc. simpl.
      rewrite length_app. simpl. by rewrite Nat.add_1_r.
    + simpl. eapply Forall2_impl; [exact H2'|].
      intros r' d' Hr'. simpl in Hr'. by apply lookup_app_l_Some.
Qed.

Lemma create_valid_run (env : Env) (groupName : string) (items : list Ref)
    (w : World) (vals : list DeviceItem.t) (g : GroupItem.t) (gg : GG.Group) :
  groupName ≠ "" → items ≠ [] →
  Forall2 (λ r d, heap w !! r = Some d) items vals →
  Forall (λ d, wellFormed d = true) vals →
  groupsDao_get env (history w) groupName = Ok (Some g) →
  ggUtils_getGroupInfo env (history w ++ [GroupsDaoGet groupName])
                       (GroupItem.id g) = Ok gg →
  let h5 := history w ++ prelude groupName g in
  let taskInfo :=
    createdTask env (history w) groupName g (length (heap w)) (length items) in
  let objects := heap w ++ (DeviceItem.with_status Waiting <$> vals) in
  let json := DeviceTaskSummary.map_devices (λ r, objects !! r) taskInfo in
  let q := deviceAssociationQueue env in
  createDeviceAssociationTask env groupName items w =
  match devicesDao_saveDeviceAssociationTask env h5 json with
  | Throw e =>
      (mkWorld (h5 ++ [SaveDeviceAssociationTask json]) objects (unawaited w),
       Throw e)
  | Ok _ =>
      (mkWorld (h5 ++ [SaveDeviceAssociationTask json;
                       SendMessage q json "DeviceTaskSummary"])
               objects (unawaited w),
       match sqs_sendMessage env (h5 ++ [SaveDeviceAssociationTask json])
                             q json "DeviceTaskSummary" with
       | Ok _ => Ok taskInfo
       | Throw e => Throw e
       end)
  end.
Proof.
  intros Hname Hitems H2 Hvals Hg Hgg. cbv zeta.
  unfold createDeviceAssociationTask, createdTask, prelude.
  rewrite run_bind, ow_string_nonEmpty_ok by (by apply nonEmpty_true).
  rewrite run_bind, ow_array_minLength1_ok by assumption.
  rewrite run_bind, validation_loop_ok.
  2:{ clear -H2 Hvals. induction H2; [constructor|].
      inversion Hvals; subst. constructor; eauto. }
  rewrite run_bind. unfold getGroupItem. rewrite run_bind.
  unfold call at 1. rewrite Hg, run_ret.
  rewrite run_bind. unfold call at 1. unfold record at 1 2. simpl history.
  rewrite Hgg.
  do 3 (rewrite run_bind; unfold call at 1; unfold record at 1 2; simpl history).
  rewrite run_bind.
  erewrite copy_loop_run by exact H2. simpl heap. simpl history. simpl unawaited.
  rewrite run_bind. unfold stringifyTask at 1. simpl heap.
  rewrite run_bind. unfold call at 1. unfold record at 1 2. simpl history.
  simpl heap. simpl unawaited.
  repeat rewrite <- app_assoc. simpl app.
  match goal with
  | |- context [devicesDao_saveDeviceAssociationTask env ?h ?j] =>
      destruct (devicesDao_saveDeviceAssociationTask env h j) as [[]|e];
        [|reflexivity]
  end.
  rewrite run_bind. unfold stringifyTask at 1. simpl heap.
  rewrite run_bind. unfold call at 1. unfold record at 1 2. simpl.
  repeat rewrite <- app_assoc. simpl app.
  match goal with
  | |- context [sqs_sendMessage env ?h ?u ?j ?t] =>
      destruct (sqs_sendMessage env h u j t) as [[]|e]; reflexivity
  end.
Qed.

Lemma created_json_eq (env : Env) (w : World) (groupName : string)
    (g : GroupItem.t) (items : list Ref) (vals : list DeviceItem.t) :
  Forall2 (λ r d, heap w !! r = Some d) items vals →
  DeviceTaskSummary.map_devices
    (λ r, (heap w ++ (DeviceItem.with_status Waiting <$> vals)) !! r)
    (createdTask env (history w) groupName g (length (heap w)) (length items))
  = createdJson env w groupName g items.
Proof.
  intros H2. unfold createdJson, DeviceTaskSummary.map_devices, createdTask.
  simpl. f_equal.
  apply list_eq. intros i. rewrite !list_lookup_fmap.
  destruct (decide (i < length items)%nat) as [Hi|Hi].
  - rewrite lookup_seq_lt by assumption. simpl.
    destruct (lookup_lt_is_Some_2 items i Hi) as [r Hr]. rewrite Hr. simpl.
    destruct (Forall2_lookup_l _ _ _ _ _ H2 Hr) as (d & Hd & Hrd).
    rewrite Hrd. simpl. rewrite lookup_app_r by lia.
    replace (length (heap w) + i - length (heap w))%nat with i by lia.
    by rewrite list_lookup_fmap, Hd.
  - rewrite lookup_seq_ge by lia. rewrite (lookup_ge_None_2 items) by lia.
    reflexivity.
Qed.

(** The ways an accepted call ends before it builds the summary. *)
Lemma create_valid_early (env : Env) (groupName : string) (items : list Ref)
    (w : World) :
  validInput (heap w) groupName items →
  match groupsDao_get env (history w) groupName with
  | Throw e =>
      createDeviceAssociationTask env groupName items w
      = (record (GroupsDaoGet groupName) w, Throw e)
  | Ok None =>
      createDeviceAssociationTask env groupName items w
      = (record (GroupsDaoGet groupName) w,
         Throw (mkError PlainError "NOT_FOUND"))
  | Ok (Some g) =>
      ∀ e, ggUtils_getGroupInfo env (history w ++ [GroupsDaoGet groupName])
                                (GroupItem.id g) = Throw e →
      createDeviceAssociationTask env groupName items w
      = (mkWorld (history w ++ [GroupsDaoGet groupName;
                                GetGroupInfo (GroupItem.id g)])
                 (heap w) (unawaited w), Throw e)
  end.
Proof.
  intros (Hname & Hitems & Hall).
  destruct (groupsDao_get env (history w) groupName) as [[g|]|e] eqn:Hg;
    [intros e Hgg|..];
    unfold createDeviceAssociationTask;
    rewrite run_bind, ow_string_nonEmpty_ok by (by apply nonEmpty_true);
    rewrite run_bind, ow_array_minLength1_ok by assumption;
    rewrite run_bind, validation_loop_ok by assumption;
    rewrite run_bind; unfold getGroupItem; rewrite run_bind; unfold call at 1;
    rewrite Hg; try reflexivity.
  rewrite run_ret, run_bind. unfold call at 1.
  unfold record at 1 2. simpl history. rewrite Hgg.
  unfold record. simpl. by rewrite <- app_assoc.
Qed.

(** The way it ends once the group is resolved and confirmed. *)
Lemma create_valid_late (env : Env) (groupName : string) (items : list Ref)
    (w : World) (g : GroupItem.t) (gg : GG.Group) :
  validInput (heap w) groupName items →
  groupsDao_get env (history w) groupName = Ok (Some g) →
  ggUtils_getGroupInfo env (history w ++ [GroupsDaoGet groupName])
                       (GroupItem.id g) = Ok gg →
  let h5 := history w ++ prelude groupName g in
  let json := createdJson env w groupName g items in
  let q := deviceAssociationQueue env in
  ∃ objects,
    heap w `prefix_of` objects ∧
    createDeviceAssociationTask env groupName items w =
    match devicesDao_saveDeviceAssociationTask env h5 json with
    | Throw e =>
        (mkWorld (h5 ++ [SaveDeviceAssociationTask json]) objects (unawaited w),
         Throw e)
    | Ok _ =>
        (mkWorld (h5 ++ [SaveDeviceAssociationTask json;
                         SendMessage q json "DeviceTaskSummary"])
                 objects (unawaited w),
         match sqs_sendMessage env (h5 ++ [SaveDeviceAssociationTask json])
                               q json "DeviceTaskSummary" with
         | Ok _ => Ok (createdTask env (history w) groupName g
                                   (length (heap w)) (length items))
         | Throw e => Throw e
         end)
    end.
Proof.
  intros (Hname & Hitems & Hall) Hg Hgg h5 json q.
  destruct (objects_of_valid _ _ Hall) as (vals & H2 & Hvals).
  exists (heap w ++ (DeviceItem.with_status Waiting <$> vals)).
  split; [by apply prefix_app_r|].
  rewrite (create_valid_run env groupName items w vals g gg) by assumption.
  cbv zeta. rewrite (created_json_eq env w groupName g items vals H2).
  reflexivity.
Qed.

(** C4: a call of [createDeviceAssociationTask] with an empty group name, an
    empty array, or an item one of whose [thingName], [type] and
    [provisioningTemplate] is empty, raises an argument (validation) error
    and leaves the world as it was: nothing is added to the history, so
    neither the store nor the queue was called. *)
Theorem createDeviceAssociationTask_rejects_invalid_input
    (env : Env) (groupName : string) (items : list Ref) (w : World) :
  allObjects (heap w) items →
  invalidInput (heap w) groupName items →
  ∃ e, createDeviceAssociationTask env groupName items w = (w, Throw e)
       ∧ kind e = ArgumentError.
Proof.
  intros Hobj Hbad. unfold createDeviceAssociationTask. rewrite run_bind.
  destruct (nonEmpty groupName) eqn:Hname.
  2:{ destruct (ow_string_nonEmpty_fail _ w Hname) as (e & -> & He). eauto. }
  rewrite (ow_string_nonEmpty_ok _ _ Hname), run_bind.
  destruct items as [|r items]; [simpl; eauto|].
  simpl ow_array_minLength1. rewrite run_ret, run_bind.
  destruct Hbad as [->|[?|Hex]]; [done..|].
  destruct (validation_loop_fail (r :: items) w Hobj) as (e & -> & He); eauto.
  eapply Exists_impl; [exact Hex|].
  intros r' (d & Hr' & Hd). exists d. split; [assumption|].
  by apply empty_field_not_wellFormed.
Qed.

Lemma createDeviceAssociationTask_rejects_invalid_input_witness :
  allObjects (heap world0) [] ∧ invalidInput (heap world0) "" [] ∧
  ∃ e, createDeviceAssociationTask goodEnv "" [] world0 = (world0, Throw e)
       ∧ kind e = ArgumentError.
Proof.
  assert (Hobj : allObjects (heap world0) []) by constructor.
  assert (Hbad : invalidInput (heap world0) "" []) by (by left).
  split; [exact Hobj|]. split; [exact Hbad|].
  exact (createDeviceAssociationTask_rejects_invalid_input
           goodEnv "" [] world0 Hobj Hbad).
Defined.

(** [getDeviceAssociationTask] with any group id. *)
Lemma getDeviceAssociationTask_run
    (env : Env) (groupId taskId : string) (w : World) :
  taskId ≠ "" →
  getDeviceAssociationTask env groupId taskId w =
  (record (GetDeviceAssociationTask groupId taskId) w,
   devicesDao_getDeviceAssociationTask env (history w) groupId taskId).
Proof.
  intros Htask. unfold getDeviceAssociationTask.
  rewrite run_bind, ow_string_nonEmpty_ok by (by apply nonEmpty_true).
  reflexivity.
Qed.

(** C9: [getDeviceAssociationTask] checks its task id only.  Called with an
    empty group id and a non-empty task id it raises no validation error of
    its own: it makes exactly one call, the store lookup with the empty
    group id and the task id as given, and its result is the store's. *)
Theorem getDeviceAssociationTask_forwards_empty_groupId
    (env : Env) (taskId : string) (w : World) :
  taskId ≠ "" →
  getDeviceAssociationTask env "" taskId w =
  (mkWorld (history w ++ [GetDeviceAssociationTask "" taskId])
           (heap w) (unawaited w),
   devicesDao_getDeviceAssociationTask env (history w) "" taskId).
Proof. intros Htask. by rewrite getDeviceAssociationTask_run. Qed.

Lemma getDeviceAssociationTask_forwards_empty_groupId_witness :
  "PPBqWA9" ≠ "" ∧
  getDeviceAssociationTask goodEnv "" "PPBqWA9" world0 =
  (mkWorld [GetDeviceAssociationTask "" "PPBqWA9"] [sampleDevice] [], Ok None).
Proof.
  assert (H : "PPBqWA9" ≠ "") by discriminate.
  split; [exact H|].
  exact (getDeviceAssociationTask_forwards_empty_groupId goodEnv "PPBqWA9" world0 H).
Defined.

Ltac no_such_event i H :=
  repeat (destruct i as [|i]; simpl in H; try discriminate H).

(** C2: on every valid input, [createDeviceAssociationTask] writes the task
    to the store strictly before it publishes the same task to the queue,
    and when the store write fails nothing is published at all: the call
    ends with the store's error.  (The write is made as soon as the group
    is resolved and confirmed.) *)
Theorem createDeviceAssociationTask_persists_before_publishing
    (env : Env) (groupName : string) (items : list Ref) (w : World) :
  validInput (heap w) groupName items →
  ∃ evs,
    history (createDeviceAssociationTask env groupName items w).1
      = history w ++ evs ∧
    (∀ i q body mt,
        evs !! i = Some (SendMessage q body mt) →
        ∃ j, (j < i)%nat ∧ evs !! j = Some (SaveDeviceAssociationTask body)) ∧
    (∀ j task e,
        evs !! j = Some (SaveDeviceAssociationTask task) →
        devicesDao_saveDeviceAssociationTask env (history w ++ take j evs) task
          = Throw e →
        (createDeviceAssociationTask env groupName items w).2 = Throw e ∧
        Forall (λ ev, isPublish ev = false) evs) ∧
    (∀ g gg,
        groupsDao_get env (history w) groupName = Ok (Some g) →
        ggUtils_getGroupInfo env (history w ++ [GroupsDaoGet groupName])
                             (GroupItem.id g) = Ok gg →
        evs !! 5%nat
          = Some (SaveDeviceAssociationTask (createdJson env w groupName g items))).
Proof.
  intros Hvalid.
  pose proof (create_valid_early env groupName items w Hvalid) as Hearly.
  destruct (groupsDao_get env (history w) groupName) as [[g|]|e0] eqn:Hg.
  - destruct (ggUtils_getGroupInfo env (history w ++ [GroupsDaoGet groupName])
                (GroupItem.id g)) as [gg|e1] eqn:Hgg.
    + destruct (create_valid_late env groupName items w g gg Hvalid Hg Hgg)
        as (objects & _ & Hrun).
      cbv zeta in Hrun. rewrite Hrun.
      destruct (devicesDao_saveDeviceAssociationTask env
                  (history w ++ prelude groupName g)
                  (createdJson env w groupName g items)) as [[]|e2] eqn:Hsave.
      * eexists. split; [simpl; rewrite <- app_assoc; reflexivity|].
        unfold prelude in *. simpl app. split; [|split].
        -- intros i q body mt Hi. no_such_event i Hi.
           injection Hi as _ <- _. exists 5%nat. split; [lia|reflexivity].
        -- intros j task e Hj Hfail. no_such_event j Hj.
           injection Hj as <-. simpl in Hfail. congruence.
        -- intros g' gg' Hg' _. by simplify_eq.
      * eexists. split; [simpl; rewrite <- app_assoc; reflexivity|].
        unfold prelude in *. simpl app. split; [|split].
        -- intros i q body mt Hi. no_such_event i Hi.
        -- intros j task e Hj Hfail. no_such_event j Hj.
           injection Hj as <-. simpl in Hfail. split; [simpl; congruence|].
           repeat constructor.
        -- intros g' gg' Hg' _. by simplify_eq.
    + rewrite (Hearly e1 eq_refl). eexists. split; [reflexivity|].
      split; [|split].
      * intros i q body mt Hi. no_such_event i Hi.
      * intros j task e Hj Hfail. no_such_event j Hj.
      * intros g' gg' Hg' Hgg'. congruence.
  - rewrite Hearly. eexists. split; [reflexivity|]. split; [|split].
    + intros i q body mt Hi. no_such_event i Hi.
    + intros j task e Hj Hfail. no_such_event j Hj.
    + intros g' gg' Hg' Hgg'. congruence.
  - rewrite Hearly. eexists. split; [reflexivity|]. split; [|split].
    + intros i q body mt Hi. no_such_event i Hi.
    + intros j task e Hj Hfail. no_such_event j Hj.
    + intros g' gg' Hg' Hgg'. congruence.
Qed.

Lemma sample_input_valid : validInput (heap world0) "group-1" [0%nat].
Proof.
  split; [discriminate|]. split; [discriminate|].
  constructor; [|constructor]. by exists sampleDevice.
Qed.

Lemma createDeviceAssociationTask_persists_before_publishing_witness :
  validInput (heap world0) "group-1" [0%nat] ∧
  ∃ evs,
    history (createDeviceAssociationTask goodEnv "group-1" [0%nat] world0).1
      = history world0 ++ evs ∧
    ∀ i q body mt,
      evs !! i = Some (SendMessage q body mt) →
      ∃ j, (j < i)%nat ∧ evs !! j = Some (SaveDeviceAssociationTask body).
Proof.
  split; [exact sample_input_valid|].
  destruct (createDeviceAssociationTask_persists_before_publishing
              goodEnv "group-1" [0%nat] world0 sample_input_valid)
    as (evs & Hhist & Horder & _).
  exists evs. split; [exact Hhist|exact Horder].
Defined.

(** *** The summary that is returned *)

(** What a call that returns has done. *)
Lemma create_ok_inv (env : Env) (groupName : string) (items : list Ref)
    (w w' : World) (t : Task) :
  createDeviceAssociationTask env groupName items w = (w', Ok t) →
  ∃ g vals,
    Forall2 (λ r d, heap w !! r = Some d) items vals ∧
    t = createdTask env (history w) groupName g
                    (length (heap w)) (length items) ∧
    heap w' = heap w ++ (DeviceItem.with_status Waiting <$> vals).
Proof.
  intros Hrun.
  assert (Hvalid : validInput (heap w) groupName items).
  { revert Hrun. unfold createDeviceAssociationTask. rewrite run_bind.
    destruct (nonEmpty groupName) eqn:Hname.
    2:{ destruct (ow_string_nonEmpty_fail _ w Hname) as (e & -> & _). done. }
    rewrite (ow_string_nonEmpty_ok _ _ Hname), run_bind.
    destruct items as [|r items]; [done|].
    simpl ow_array_minLength1. rewrite run_ret, run_bind.
    destruct (validation_loop_inv (r :: items) w) as [Hw Hok].
    destruct (forEach validateDevice (r :: items) w) as [w1 [[]|e]]; [|done].
    intros _. split; [by apply nonEmpty_true|]. split; [done|]. by apply Hok. }
  pose proof (create_valid_early env groupName items w Hvalid) as Hearly.
  destruct Hvalid as (Hname & Hitems & Hall).
  destruct (objects_of_valid _ _ Hall) as (vals & H2 & Hvals).
  destruct (groupsDao_get env (history w) groupName) as [[g|]|e0] eqn:Hg;
    [|congruence..].
  destruct (ggUtils_getGroupInfo env (history w ++ [GroupsDaoGet groupName])
              (GroupItem.id g)) as [gg|e1] eqn:Hgg.
  2:{ rewrite (Hearly e1 eq_refl) in Hrun. congruence. }
  rewrite (create_valid_run env groupName items w vals g gg) in Hrun
    by assumption.
  cbv zeta in Hrun. exists g, vals. split; [exact H2|].
  destruct (devicesDao_saveDeviceAssociationTask _ _ _) as [[]|e2];
    [|congruence].
  destruct (sqs_sendMessage _ _ _ _ _) as [[]|e3]; [|congruence].
  by simplify_eq.
Qed.

Lemma copies_of_items (h : list DeviceItem.t) (items : list Ref)
    (vals : list DeviceItem.t) :
  Forall2 (λ r d, h !! r = Some d) items vals →
  Forall2 (λ item device,
             (length h ≤ device)%nat ∧
             ∃ d, h !! item = Some d ∧
                  (h ++ (DeviceItem.with_status Waiting <$> vals)) !! device
                  = Some (DeviceItem.with_status Waiting d))
          items (seq (length h) (length items)).
Proof.
  intros H2. apply Forall2_same_length_lookup. split; [by rewrite length_seq|].
  intros i item device Hitem Hdevice.
  apply lookup_seq in Hdevice as [-> Hi].
  split; [lia|].
  destruct (Forall2_lookup_l _ _ _ _ _ H2 Hitem) as (d & Hd & Hrd).
  exists d. split; [exact Hrd|].
  rewrite lookup_app_r by lia.
  replace (length h + i - length h)%nat with i by lia.
  by rewrite list_lookup_fmap, Hd.
Qed.

(** C5, as amended: on a valid input for which the group is resolved and
    confirmed, the store write succeeds and the queue publish succeeds,
    [createDeviceAssociationTask] returns a summary whose status is
    [Waiting], whose [taskId] is the answer of the [shortid.generate()] it
    called, whose [createdAt] and [updatedAt] are the answers of the two
    [new Date()] it evaluated, and whose devices match the input items one
    by one, in order: same [thingName], [type] and [provisioningTemplate],
    status [Waiting]. *)
Theorem createDeviceAssociationTask_returns_waiting_summary
    (env : Env) (groupName : string) (items : list Ref) (w : World)
    (g : GroupItem.t) (gg : GG.Group) :
  let h2 := history w ++ [GroupsDaoGet groupName; GetGroupInfo (GroupItem.id g)] in
  let h5 := history w ++ prelude groupName g in
  let json := createdJson env w groupName g items in
  validInput (heap w) groupName items →
  groupsDao_get env (history w) groupName = Ok (Some g) →
  ggUtils_getGroupInfo env (history w ++ [GroupsDaoGet groupName])
                       (GroupItem.id g) = Ok gg →
  devicesDao_saveDeviceAssociationTask env h5 json = Ok tt →
  sqs_sendMessage env (h5 ++ [SaveDeviceAssociationTask json])
                  (deviceAssociationQueue env) json "DeviceTaskSummary" = Ok tt →
  ∃ w' t,
    createDeviceAssociationTask env groupName items w = (w', Ok t) ∧
    DeviceTaskSummary.status t = Waiting ∧
    DeviceTaskSummary.groupName t = groupName ∧
    DeviceTaskSummary.taskId t = shortid_generate env h2 ∧
    DeviceTaskSummary.createdAt t = new_Date env (h2 ++ [ShortidGenerate]) ∧
    DeviceTaskSummary.updatedAt t
      = new_Date env (h2 ++ [ShortidGenerate; NewDate]) ∧
    Forall2 (λ item device,
               ∃ d d', heap w !! item = Some d ∧ heap w' !! device = Some d' ∧
                       DeviceItem.thingName d' = DeviceItem.thingName d ∧
                       DeviceItem.type d' = DeviceItem.type d ∧
                       DeviceItem.provisioningTemplate d'
                         = DeviceItem.provisioningTemplate d ∧
                       DeviceItem.status d' = Some Waiting)
            items (DeviceTaskSummary.devices t).
Proof.
  intros h2 h5 json Hvalid Hg Hgg Hsave Hsend.
  pose proof Hvalid as (Hname & Hitems & Hall).
  destruct (objects_of_valid _ _ Hall) as (vals & H2 & Hvals).
  pose proof (create_valid_run env groupName items w vals g gg
                Hname Hitems H2 Hvals Hg Hgg) as Hrun.
  cbv zeta in Hrun.
  rewrite (created_json_eq env w groupName g items vals H2) in Hrun.
  fold json h5 in Hrun. rewrite Hsave, Hsend in Hrun.
  eexists _, _. split; [exact Hrun|]. simpl.
  do 5 (split; [reflexivity|]).
  eapply Forall2_impl; [exact (copies_of_items _ _ _ H2)|].
  intros item device (_ & d & Hd & Hcopy). by eexists d, _.
Qed.

Lemma createDeviceAssociationTask_returns_waiting_summary_witness :
  ∃ w' t,
    createDeviceAssociationTask goodEnv "group-1" [0%nat] world0 = (w', Ok t) ∧
    DeviceTaskSummary.status t = Waiting ∧
    DeviceTaskSummary.taskId t = "PPBqWA9" ∧
    DeviceTaskSummary.devices t = [1%nat] ∧
    heap w' !! 1%nat = Some (DeviceItem.mk "t1" "core" "tmpl-a" (Some Waiting) None).
Proof.
  destruct (createDeviceAssociationTask_returns_waiting_summary
              goodEnv "group-1" [0%nat] world0
              (sampleGroup "group-1") (GG.mkGroup "gg-group-1" "v1")
              sample_input_valid eq_refl eq_refl eq_refl eq_refl)
    as (w' & t & Hrun & Hstatus & _ & Hid & _).
  exists w', t. split; [exact Hrun|]. split; [exact Hstatus|].
  split; [exact Hid|].
  vm_compute in Hrun. injection Hrun as <- <-. split; reflexivity.
Defined.

(** C5, as stated, fails: the input is valid, the group is resolved and
    confirmed, and yet no summary is returned, because the store write is
    awaited and its error ends the call. *)
Lemma createDeviceAssociationTask_may_throw_after_confirmation :
  validInput (heap world0) "group-1" [0%nat] ∧
  groupsDao_get storeDownEnv (history world0) "group-1"
    = Ok (Some (sampleGroup "group-1")) ∧
  ggUtils_getGroupInfo storeDownEnv
    (history world0 ++ [GroupsDaoGet "group-1"]) "gg-group-1"
    = Ok (GG.mkGroup "gg-group-1" "v1") ∧
  ¬ ∃ w' t,
      createDeviceAssociationTask storeDownEnv "group-1" [0%nat] world0
      = (w', Ok t).
Proof.
  split; [exact sample_input_valid|]. split; [reflexivity|].
  split; [reflexivity|].
  intros (w' & t & Hrun). vm_compute in Hrun. discriminate Hrun.
Qed.

(** *** Objects are only ever added *)

Create HintDb keeps.

Lemma keeps_ret {A} (a : A) : keepsObjects (mret a : M A).
Proof. intros w. reflexivity. Qed.

Lemma keeps_throw {A} (e : Error) : keepsObjects (throw e : M A).
Proof. intros w. reflexivity. Qed.

Lemma keeps_call {A} (ev : Event) (answer : list Event → Result A) :
  keepsObjects (call ev answer).
Proof. intros w. reflexivity. Qed.

Lemma keeps_deref (r : Ref) : keepsObjects (deref r).
Proof. intros w. unfold deref. by destruct (heap w !! r). Qed.

Lemma keeps_alloc (d : DeviceItem.t) : keepsObjects (alloc d).
Proof. intros w. simpl. by apply prefix_app_r. Qed.

Lemma keeps_stringifyTask (t : Task) : keepsObjects (stringifyTask t).
Proof. intros w. reflexivity. Qed.

Lemma keeps_ow_string (s : string) : keepsObjects (ow_string_nonEmpty s).
Proof. intros w. unfold ow_string_nonEmpty. by destruct (nonEmpty s). Qed.

Lemma keeps_ow_array {A} (label : string) (xs : list A) :
  keepsObjects (ow_array_minLength1 label xs).
Proof. intros w. by destruct xs. Qed.

Lemma keeps_bind {A B} (m : M A) (f : A → M B) :
  keepsObjects m → (∀ a, keepsObjects (f a)) → keepsObjects (m ≫= f).
Proof.
  intros Hm Hf w. rewrite run_bind. specialize (Hm w).
  destruct (m w) as [w1 [a|e]]; simpl in *; [|exact Hm].
  etransitivity; [exact Hm|apply Hf].
Qed.

Global Hint Resolve keeps_ret keeps_throw keeps_call keeps_deref keeps_alloc
  keeps_stringifyTask keeps_ow_string keeps_ow_array : keeps.

Lemma keeps_forEach {A} (f : A → M unit) (xs : list A) :
  (∀ x, keepsObjects (f x)) → keepsObjects (forEach f xs).
Proof.
  intros Hf. induction xs as [|x xs IH]; simpl; [apply keeps_ret|].
  apply keeps_bind; [apply Hf|intros _; exact IH].
Qed.

Lemma keeps_mapM {A B} (f : A → M B) (xs : list A) :
  (∀ x, keepsObjects (f x)) → keepsObjects (mapM f xs).
Proof.
  intros Hf. induction xs as [|x xs IH]; simpl; [apply keeps_ret|].
  apply keeps_bind; [apply Hf|intros y].
  apply keeps_bind; [exact IH|intros ys; apply keeps_ret].
Qed.

Lemma keeps_validateDevice (r : Ref) : keepsObjects (validateDevice r).
Proof.
  unfold validateDevice.
  repeat (apply keeps_bind; [auto with keeps|intros ?]). auto with keeps.
Qed.

Lemma keeps_copyWaiting (r : Ref) : keepsObjects (copyWaiting r).
Proof. unfold copyWaiting. apply keeps_bind; auto with keeps. Qed.

Lemma keeps_getGroupItem (env : Env) (groupName : string) :
  keepsObjects (getGroupItem env groupName).
Proof.
  unfold getGroupItem. apply keeps_bind; [auto with keeps|].
  intros [g|]; auto with keeps.
Qed.

Lemma keeps_createDeviceAssociationTask
    (env : Env) (groupName : string) (items : list Ref) :
  keepsObjects (createDeviceAssociationTask env groupName items).
Proof.
  unfold createDeviceAssociationTask.
  repeat (apply keeps_bind;
          [ auto using keeps_forEach, keeps_mapM, keeps_validateDevice,
              keeps_copyWaiting, keeps_getGroupItem with keeps
          | intros ? ]).
  auto with keeps.
Qed.

(** C10: [createDeviceAssociationTask] never mutates its [items] argument.
    Whatever the input, every object that existed before the call (the
    items among them) has the same fields after it.  When a summary is
    returned, its devices are objects that did not exist before the call,
    distinct from one another, each holding the fields of the item at the
    same position with the status replaced by [Waiting], whatever status
    the item had. *)
Theorem createDeviceAssociationTask_copies_items
    (env : Env) (groupName : string) (items : list Ref) (w w' : World)
    (r : Result Task) :
  createDeviceAssociationTask env groupName items w = (w', r) →
  (∀ ref d, heap w !! ref = Some d → heap w' !! ref = Some d) ∧
  (∀ t, r = Ok t →
        NoDup (DeviceTaskSummary.devices t) ∧
        Forall2 (λ item device,
                   (length (heap w) ≤ device)%nat ∧
                   ∃ d, heap w !! item = Some d ∧
                        heap w' !! device
                        = Some (DeviceItem.with_status Waiting d))
                items (DeviceTaskSummary.devices t)).
Proof.
  intros Hrun. split.
  - intros ref d Hd.
    pose proof (keeps_createDeviceAssociationTask env groupName items w) as Hk.
    rewrite Hrun in Hk. simpl in Hk.
    eapply prefix_lookup_Some; eassumption.
  - intros t ->.
    destruct (create_ok_inv _ _ _ _ _ _ Hrun) as (g & vals & H2 & -> & ->).
    simpl. split; [apply NoDup_seq|]. by apply copies_of_items.
Qed.

Lemma createDeviceAssociationTask_copies_items_witness :
  ∃ w' t,
    createDeviceAssociationTask goodEnv "group-1" [0%nat] staleWorld
      = (w', Ok t) ∧
    heap w' !! 0%nat = Some staleDevice ∧
    DeviceTaskSummary.devices t = [1%nat] ∧
    heap w' !! 1%nat
      = Some (DeviceItem.mk "t2" "device" "tmpl-b" (Some Waiting)
                            (Some "earlier attempt")).
Proof.
  destruct (createDeviceAssociationTask goodEnv "group-1" [0%nat] staleWorld)
    as [w' r] eqn:Hrun.
  pose proof (createDeviceAssociationTask_copies_items
                goodEnv "group-1" [0%nat] staleWorld w' r Hrun)
    as [Hkept Hcopies].
  vm_compute in Hrun. injection Hrun as <- <-.
  eexists _, _. split; [reflexivity|].
  split; [exact (Hkept 0%nat staleDevice eq_refl)|].
  destruct (Hcopies _ eq_refl) as [_ Hfresh].
  inversion Hfresh as [|item device ? ? (_ & d & Hd & Hcopy) _]; subst.
  split; [reflexivity|]. injection Hd as <-. exact Hcopy.
Defined.

(** ** [associateDevicesWithGroup]: up to the chain *)

Lemma mark_loop_run (devices : list Ref) (w w' : World) (r : Result unit) :
  forEach (λ d, assign d (DeviceItem.with_status InProgress)) devices w
    = (w', r) →
  history w' = history w ∧ unawaited w' = unawaited w ∧
  (∀ ref, inProgressAt (heap w) ref → inProgressAt (heap w') ref) ∧
  (r = Ok tt → Forall (inProgressAt (heap w')) devices).
Proof.
  revert w. induction devices as [|x devices IH]; intros w Hrun; simpl in Hrun.
  - rewrite run_ret in Hrun. simplify_eq. repeat split; auto.
  - rewrite run_bind in Hrun. unfold assign at 1 in Hrun.
    destruct (heap w !! x) as [d|] eqn:Hx.
    2:{ simplify_eq. repeat split; auto. discriminate. }
    destruct (IH _ Hrun) as (Hh & Hu & Hkeep & Hall). simpl in *.
    assert (Hx' : inProgressAt
                    (<[x:=DeviceItem.with_status InProgress d]> (heap w)) x).
    { exists (DeviceItem.with_status InProgress d). split; [|done].
      apply list_lookup_insert_eq. by eapply lookup_lt_Some. }
    split; [exact Hh|]. split; [exact Hu|]. split.
    + intros ref (d' & Hd' & Hs). apply Hkeep.
      destruct (decide (x = ref)) as [<-|Hne]; [exact Hx'|].
      exists d'. by rewrite list_lookup_insert_ne.
    + intros Hok. constructor; auto.
Qed.

Lemma quiet_ret {A} (a : A) : callsNoHandler (mret a : M A).
Proof. intros w. exists []. by rewrite app_nil_r. Qed.

Lemma quiet_throw {A} (e : Error) : callsNoHandler (throw e : M A).
Proof. intros w. exists []. by rewrite app_nil_r. Qed.

Lemma quiet_call {A} (ev : Event) (answer : list Event → Result A) :
  isHandle ev = false → callsNoHandler (call ev answer).
Proof. intros Hev w. exists [ev]. split; [reflexivity|by constructor]. Qed.

Lemma quiet_ow_string (s : string) : callsNoHandler (ow_string_nonEmpty s).
Proof.
  unfold ow_string_nonEmpty.
  destruct (nonEmpty s); [apply quiet_ret|apply quiet_throw].
Qed.

Lemma quiet_ow_array {A} (label : string) (xs : list A) :
  callsNoHandler (ow_array_minLength1 label xs).
Proof. destruct xs; [apply quiet_throw|apply quiet_ret]. Qed.

Lemma quiet_bind {A B} (m : M A) (f : A → M B) :
  callsNoHandler m → (∀ a, callsNoHandler (f a)) → callsNoHandler (m ≫= f).
Proof.
  intros Hm Hf w. rewrite run_bind. destruct (Hm w) as (evs & Hevs & Hq).
  destruct (m w) as [w1 [a|e]]; simpl in *; [|by exists evs].
  destruct (Hf a w1) as (evs' & Hevs' & Hq').
  exists (evs ++ evs'). split; [by rewrite Hevs', Hevs, app_assoc|].
  by apply Forall_app.
Qed.

Lemma quiet_getGroupItem (env : Env) (groupName : string) :
  callsNoHandler (getGroupItem env groupName).
Proof.
  unfold getGroupItem. apply quiet_bind; [by apply quiet_call|].
  intros [g|]; [apply quiet_ret|apply quiet_throw].
Qed.

Lemma quiet_getTemplateItem (env : Env) (name : string) (versionNo : Z) :
  callsNoHandler (getTemplateItem env name versionNo).
Proof.
  unfold getTemplateItem. apply quiet_bind; [by apply quiet_call|].
  intros [g|]; [apply quiet_ret|apply quiet_throw].
Qed.

Lemma quiet_promiseAll3 {A B C} (a : M A) (b : M B) (c : M C) :
  callsNoHandler a → callsNoHandler b → callsNoHandler c →
  callsNoHandler (promiseAll3 a b c).
Proof.
  intros Ha Hb Hc w. unfold promiseAll3.
  destruct (Ha w) as (ea & Hea & Hqa). destruct (a w) as [w1 ra].
  destruct (Hb w1) as (eb & Heb & Hqb). destruct (b w1) as [w2 rb].
  destruct (Hc w2) as (ec & Hec & Hqc). destruct (c w2) as [w3 rc].
  simpl in *. exists (ea ++ eb ++ ec).
  split; [by rewrite Hec, Heb, Hea, <- !app_assoc|].
  by repeat apply Forall_app_2.
Qed.

Lemma quiet_mark_loop (devices : list Ref) :
  callsNoHandler
    (forEach (λ d, assign d (DeviceItem.with_status InProgress)) devices).
Proof.
  intros w. exists []. rewrite app_nil_r. split; [|constructor].
  destruct (forEach _ devices w) as [w' r] eqn:Hrun.
  simpl. by destruct (mark_loop_run devices w w' r Hrun) as (-> & _).
Qed.

Lemma quiet_resolve (env : Env) (taskInfo : Task) :
  callsNoHandler (associateDevicesWithGroup_resolve env taskInfo).
Proof.
  unfold associateDevicesWithGroup_resolve.
  repeat (apply quiet_bind;
          [ first [ apply quiet_ow_string | apply quiet_ow_array
                  | apply quiet_getGroupItem | by apply quiet_call
                  | apply quiet_mark_loop
                  | apply quiet_promiseAll3;
                      first [ by apply quiet_call | apply quiet_getTemplateItem ] ]
          | intros ? ]).
  match goal with x : (_ * _ * _)%type |- _ => destruct x as [[? ?] ?] end.
  apply quiet_bind; [apply quiet_mark_loop|intros; apply quiet_ret].
Qed.

Ltac run_ow H :=
  rewrite run_bind in H;
  match type of H with
  | context [ow_string_nonEmpty ?s ?w] =>
      let Hs := fresh "Hs" in
      destruct (nonEmpty s) eqn:Hs;
      [ rewrite (ow_string_nonEmpty_ok s w Hs) in H
      | destruct (ow_string_nonEmpty_fail s w Hs) as (? & Hfail & _);
        rewrite Hfail in H; discriminate H ]
  end.

Ltac run_call H :=
  rewrite run_bind in H; unfold call at 1 in H.

Ltac settle_answers H :=
  repeat match type of H with
         | context [templatesDao_get ?a ?b ?c ?d] =>
             destruct (templatesDao_get a b c d) as [[?|]|?]
         | context [ggUtils_getDeviceInfo ?a ?b ?c] =>
             destruct (ggUtils_getDeviceInfo a b c)
         end;
  discriminate H.

(** What a call that reaches the chain has done before. *)
Lemma resolve_inv (env : Env) (taskInfo : Task) (w w1 : World)
    (request : Request) :
  associateDevicesWithGroup_resolve env taskInfo w = (w1, Ok request) →
  DeviceTaskSummary.taskId taskInfo ≠ "" ∧
  DeviceTaskSummary.groupName taskInfo ≠ "" ∧
  DeviceTaskSummary.devices taskInfo ≠ [] ∧
  history w1 = history w ++
    lookups (DeviceTaskSummary.groupName taskInfo)
            (DeviceAssociationModel.group request)
            (DeviceAssociationModel.ggGroup request)
            (DeviceAssociationModel.ggGroupVersion request) ∧
  unawaited w1 = unawaited w ∧
  DeviceAssociationModel.taskInfo request
    = DeviceTaskSummary.with_status InProgress taskInfo ∧
  Forall (inProgressAt (heap w1)) (DeviceTaskSummary.devices taskInfo).
Proof.
  intros Hrun. unfold associateDevicesWithGroup_resolve in Hrun.
  run_ow Hrun. run_ow Hrun.
  rewrite run_bind in Hrun.
  assert (Hdevices : DeviceTaskSummary.devices taskInfo ≠ []).
  { intros Hnil. rewrite Hnil in Hrun. discriminate Hrun. }
  rewrite ow_array_minLength1_ok in Hrun by exact Hdevices.
  rewrite run_bind in Hrun. unfold getGroupItem in Hrun. run_call Hrun.
  destruct (groupsDao_get env (history w) _) as [[g|]|e0];
    [|discriminate Hrun..].
  rewrite run_ret in Hrun. run_call Hrun.
  destruct (ggUtils_getGroupInfo env _ _) as [gg|e1]; [|discriminate Hrun].
  run_call Hrun.
  destruct (ggUtils_getGroupVersionInfo env _ _ _) as [gv|e2];
    [|discriminate Hrun].
  rewrite run_bind in Hrun. unfold promiseAll3, getTemplateItem in Hrun.
  unfold call, mbind, M_bind in Hrun. cbn beta iota zeta in Hrun.
  destruct (ggUtils_getCoreInfo env _ _) as [c|e3].
  2:{ settle_answers Hrun. }
  destruct (ggUtils_getDeviceInfo env _ _) as [d|e4].
  2:{ settle_answers Hrun. }
  destruct (templatesDao_get env _ _ _) as [[t|]|e5]; [|discriminate Hrun..].
  unfold mret at 1, M_ret at 1 in Hrun. cbn beta iota zeta in Hrun.
  match type of Hrun with
  | context [forEach ?f ?ds ?w0] =>
      destruct (forEach f ds w0) as [w2 r2] eqn:Hmark
  end.
  destruct (mark_loop_run _ _ _ _ Hmark) as (Hh & Hu & _ & Hall).
  destruct r2 as [[]|e6]; [|discriminate Hrun].
  injection Hrun as <- <-. simpl.
  split; [by apply nonEmpty_true|]. split; [by apply nonEmpty_true|].
  split; [exact Hdevices|].
  split; [rewrite Hh; unfold record, lookups; simpl;
          by rewrite <- !app_assoc|].
  split; [by rewrite Hu|]. split; [reflexivity|by apply Hall].
Qed.

Lemma bind_history_stable {A B} (m : M A) (k : A → M B) (w : World)
    (h : list Event) :
  history (m w).1 = h →
  (∀ a w', history (k a w').1 = history w') →
  history ((m ≫= k) w).1 = h.
Proof.
  intros Hm Hk. rewrite run_bind.
  destruct (m w) as [w' [a|e]]; simpl in *; [|exact Hm].
  by rewrite Hk.
Qed.

(** The three calls under [Promise.all] are on record whatever they
    answer. *)
Lemma started_lookups_history {A B} (env : Env) (ev1 ev2 : Event)
    (answer1 : list Event → Result A) (answer2 : list Event → Result B)
    (name : string) (versionNo : Z) (w : World) :
  history (promiseAll3 (call ev1 answer1) (call ev2 answer2)
                       (getTemplateItem env name versionNo) w).1
  = history w ++ [ev1; ev2; TemplatesDaoGet name versionNo].
Proof.
  unfold promiseAll3, getTemplateItem, call, mbind, M_bind.
  cbn beta iota zeta.
  destruct (templatesDao_get env _ _ _) as [[t|]|e]; simpl;
    by rewrite <- !app_assoc.
Qed.

(** Once the group, its Greengrass group and the group version are
    known, the three remaining lookups are all started, whatever any of
    them answers. *)
Lemma resolve_lookups (env : Env) (taskInfo : Task) (w : World)
    (g : GroupItem.t) (gg : GG.Group) (gv : GG.GroupVersion) :
  let groupName := DeviceTaskSummary.groupName taskInfo in
  DeviceTaskSummary.taskId taskInfo ≠ "" →
  groupName ≠ "" →
  DeviceTaskSummary.devices taskInfo ≠ [] →
  groupsDao_get env (history w) groupName = Ok (Some g) →
  ggUtils_getGroupInfo env (history w ++ [GroupsDaoGet groupName])
                       (GroupItem.id g) = Ok gg →
  ggUtils_getGroupVersionInfo env
    (history w ++ [GroupsDaoGet groupName; GetGroupInfo (GroupItem.id g)])
    (GG.Id gg) (GG.LatestVersion gg) = Ok gv →
  history (associateDevicesWithGroup_resolve env taskInfo w).1
  = history w ++ lookups groupName g gg gv.
Proof.
  intros groupName Hid Hname Hdevices Hg Hgg Hgv.
  unfold associateDevicesWithGroup_resolve. fold groupName.
  rewrite run_bind, ow_string_nonEmpty_ok by (by apply nonEmpty_true).
  rewrite run_bind, ow_string_nonEmpty_ok by (by apply nonEmpty_true).
  rewrite run_bind, ow_array_minLength1_ok by assumption.
  rewrite run_bind. unfold getGroupItem. rewrite run_bind. unfold call at 1.
  rewrite Hg, run_ret.
  rewrite run_bind. unfold call at 1. unfold record at 1 2. simpl history.
  rewrite Hgg.
  rewrite run_bind. unfold call at 1. unfold record at 1 2. simpl history.
  rewrite <- app_assoc. simpl app. rewrite Hgv.
  apply bind_history_stable.
  - rewrite started_lookups_history. unfold record, lookups. simpl.
    by rewrite <- !app_assoc.
  - intros [[c d] t] w3. apply bind_history_stable.
    + destruct (forEach _ _ w3) as [w' r'] eqn:Hmark.
      by destruct (mark_loop_run _ _ _ _ Hmark) as (Hh & _).
    + reflexivity.
Qed.

(** ** [associateDevicesWithGroup]: the guarded chain *)

Lemma execute_run (getThingHandler1 saveGroupHandler : Handler)
    (request : Request) (w : World) :
  let run := invoked GetThingHandler1 getThingHandler1 request
                     (history w) (heap w) in
  associateDevicesWithGroup_execute getThingHandler1 saveGroupHandler request w
  = match outcome run with
    | Ok _ =>
        (mkWorld (history w ++ emitted run) (heap_after run) (unawaited w),
         Ok tt)
    | Throw err =>
        let run2 := invoked SaveGroupHandler saveGroupHandler
                            (recordFailure err (request_after run))
                            (history w ++ emitted run) (heap_after run) in
        (mkWorld ((history w ++ emitted run) ++ emitted run2)
                 (heap_after run2) (unawaited w ++ [outcome run2]),
         Ok tt)
    end.
Proof.
  unfold associateDevicesWithGroup_execute, invoke. cbv zeta.
  destruct (outcome (invoked GetThingHandler1 _ _ _ _)); reflexivity.
Qed.

Lemma associate_run (env : Env) (getThingHandler1 saveGroupHandler : Handler)
    (taskInfo : Task) (w : World) :
  associateDevicesWithGroup env getThingHandler1 saveGroupHandler taskInfo w
  = match associateDevicesWithGroup_resolve env taskInfo w with
    | (w1, Ok request) =>
        associateDevicesWithGroup_execute getThingHandler1 saveGroupHandler
                                          request w1
    | (w1, Throw e) => (w1, Throw e)
    end.
Proof. reflexivity. Qed.

(** The events of the guarded chain: the call of the first handler, what
    the chain does, and on an error the call of SaveGroup and what it does. *)
Lemma execute_events (getThingHandler1 saveGroupHandler : Handler)
    (request : Request) (w : World) :
  let run := getThingHandler1 request
               (history w ++ [Handle GetThingHandler1
                                (stringifyRequest (heap w) request)])
               (heap w) in
  ∃ post,
    history (associateDevicesWithGroup_execute
               getThingHandler1 saveGroupHandler request w).1
    = history w
      ++ Handle GetThingHandler1 (stringifyRequest (heap w) request)
      :: emitted run ++ post
    ∧ match outcome run with
      | Ok _ => post = []
      | Throw err =>
          ∃ post', post =
            Handle SaveGroupHandler
              (stringifyRequest (heap_after run)
                                (recordFailure err (request_after run)))
            :: post'
      end.
Proof.
  intros run. rewrite execute_run. cbv zeta. unfold invoked. simpl outcome.
  fold run. destruct (outcome run) as [[]|err]; simpl.
  - exists []. by rewrite app_nil_r.
  - eexists. split; [by rewrite <- app_assoc|]. by eexists.
Qed.

(** C6: whenever [associateDevicesWithGroup] reaches the handler chain, the
    first call of a handler is the call of the first link, and the request
    it is called with already has the task status and the status of every
    device set to [InProgress]. *)
Theorem associateDevicesWithGroup_marks_in_progress_first
    (env : Env) (getThingHandler1 saveGroupHandler : Handler)
    (taskInfo : Task) (w : World) :
  let w' := (associateDevicesWithGroup env getThingHandler1 saveGroupHandler
                                       taskInfo w).1 in
  Exists (λ ev, isHandle ev = true) (events_since w w') →
  ∃ pre request post,
    events_since w w' = pre ++ Handle GetThingHandler1 request :: post ∧
    Forall (λ ev, isHandle ev = false) pre ∧
    DeviceTaskSummary.status (DeviceAssociationModel.taskInfo request)
      = InProgress ∧
    Forall (λ device, ∃ d, device = Some d
                           ∧ DeviceItem.status d = Some InProgress)
           (DeviceTaskSummary.devices (DeviceAssociationModel.taskInfo request)).
Proof.
  intros w'. subst w'. rewrite associate_run.
  destruct (associateDevicesWithGroup_resolve env taskInfo w)
    as [w1 [request|e]] eqn:Hres.
  - intros _.
    destruct (resolve_inv _ _ _ _ _ Hres) as (_ & _ & _ & Hh & _ & Htask & Hall).
    destruct (execute_events getThingHandler1 saveGroupHandler request w1)
      as (post & Hev & _).
    eexists _, _, _. split; [|split; [|split]].
    + apply events_since_app. rewrite Hev, Hh, <- app_assoc. reflexivity.
    + unfold lookups. repeat constructor.
    + simpl. by rewrite Htask.
    + simpl. rewrite Htask. simpl. apply Forall_fmap.
      eapply Forall_impl; [exact Hall|].
      intros ref (d & Hd & Hs). by exists d.
  - intros Hex. exfalso.
    destruct (quiet_resolve env taskInfo w) as (evs & Hevs & Hquiet).
    rewrite Hres in Hevs. simpl in *.
    rewrite (events_since_app _ _ _ Hevs) in Hex.
    apply Exists_exists in Hex as (ev & Hin & Hev).
    rewrite Forall_forall in Hquiet. specialize (Hquiet ev Hin). congruence.
Qed.

Lemma associateDevicesWithGroup_marks_in_progress_first_witness :
  ∃ pre request post,
    events_since world0
      (associateDevicesWithGroup goodEnv quietHandler quietHandler
                                 sampleTask world0).1
    = pre ++ Handle GetThingHandler1 request :: post ∧
    Forall (λ ev, isHandle ev = false) pre ∧
    DeviceTaskSummary.status (DeviceAssociationModel.taskInfo request)
      = InProgress ∧
    Forall (λ device, ∃ d, device = Some d
                           ∧ DeviceItem.status d = Some InProgress)
           (DeviceTaskSummary.devices (DeviceAssociationModel.taskInfo request)).
Proof.
  apply (associateDevicesWithGroup_marks_in_progress_first
           goodEnv quietHandler quietHandler sampleTask world0).
  vm_compute. do 6 apply Exists_cons_tl. by apply Exists_cons_hd.
Defined.

(** C3: first failure wins.  When the chain raises an error, the request
    handed to SaveGroup by the [catch] block carries a group whose
    [taskStatus] is [Failure].  If the chain had left the group with
    [taskStatus] [Failure], the request is handed on exactly as the chain
    left it, so the failure message on record is the earlier one; otherwise
    the message becomes the message of the error. *)
Theorem associateDevicesWithGroup_first_failure_wins
    (env : Env) (getThingHandler1 saveGroupHandler : Handler)
    (taskInfo : Task) (w w1 : World) (request : Request) (err : Error) :
  let run := invoked GetThingHandler1 getThingHandler1 request
                     (history w1) (heap w1) in
  let failed := request_after run in
  let saved := recordFailure err failed in
  let w' := (associateDevicesWithGroup env getThingHandler1 saveGroupHandler
                                       taskInfo w).1 in
  associateDevicesWithGroup_resolve env taskInfo w = (w1, Ok request) →
  outcome run = Throw err →
  (∃ post, history w'
           = (history w1 ++ emitted run)
             ++ Handle SaveGroupHandler
                  (stringifyRequest (heap_after run) saved) :: post) ∧
  DeviceAssociationModel.taskInfo saved = DeviceAssociationModel.taskInfo failed ∧
  GroupItem.taskStatus (DeviceAssociationModel.group saved) = Some Failure ∧
  (GroupItem.taskStatus (DeviceAssociationModel.group failed) = Some Failure →
   saved = failed) ∧
  (GroupItem.taskStatus (DeviceAssociationModel.group failed) ≠ Some Failure →
   GroupItem.statusMessage (DeviceAssociationModel.group saved)
   = Some (message err)).
Proof.
  intros run failed saved w' Hres Hthrow. subst w'.
  rewrite associate_run, Hres, execute_run. cbv zeta. fold run.
  rewrite Hthrow. simpl. fold failed. fold saved.
  split; [by eexists|].
  subst saved. unfold recordFailure.
  destruct (decide (GroupItem.taskStatus (DeviceAssociationModel.group failed)
                    = Some Failure)) as [Hfailed|Hfresh]; simpl.
  - split; [reflexivity|]. split; [exact Hfailed|]. split; [done|].
    intros Hfresh. done.
  - split; [reflexivity|]. split; [reflexivity|]. split; [done|].
    reflexivity.
Qed.

Lemma sample_resolve :
  associateDevicesWithGroup_resolve goodEnv sampleTask world0
  = (world1, Ok sampleRequest).
Proof. vm_compute. reflexivity. Qed.

Lemma associateDevicesWithGroup_first_failure_wins_witness :
  let run := invoked GetThingHandler1
                     (failThenThrow "first failure" "second failure")
                     sampleRequest (history world1) (heap world1) in
  recordFailure (mkError PlainError "second failure") (request_after run)
  = request_after run
  ∧ GroupItem.statusMessage
      (DeviceAssociationModel.group (request_after run))
    = Some "first failure".
Proof.
  split; [|reflexivity].
  exact (proj1 (proj2 (proj2 (proj2
           (associateDevicesWithGroup_first_failure_wins
              goodEnv (failThenThrow "first failure" "second failure")
              quietHandler sampleTask world0 world1 sampleRequest
              (mkError PlainError "second failure")
              sample_resolve eq_refl)))) eq_refl).
Defined.



(** C7, as amended: the group version lookup is awaited first and its
    answer supplies the arguments of the core and of the device definition
    lookup.  The three lookups that follow (core definition version, device
    definition version, template) are independent of one another: once the
    group, its Greengrass group and the group version are known, all three
    are started, with arguments taken from the group and the group version
    only, whatever any of them answers. *)
Theorem associateDevicesWithGroup_starts_three_lookups
    (env : Env) (getThingHandler1 saveGroupHandler : Handler)
    (taskInfo : Task) (w : World)
    (g : GroupItem.t) (gg : GG.Group) (gv : GG.GroupVersion) :
  let groupName := DeviceTaskSummary.groupName taskInfo in
  DeviceTaskSummary.taskId taskInfo ≠ "" →
  groupName ≠ "" →
  DeviceTaskSummary.devices taskInfo ≠ [] →
  groupsDao_get env (history w) groupName = Ok (Some g) →
  ggUtils_getGroupInfo env (history w ++ [GroupsDaoGet groupName])
                       (GroupItem.id g) = Ok gg →
  ggUtils_getGroupVersionInfo env
    (history w ++ [GroupsDaoGet groupName; GetGroupInfo (GroupItem.id g)])
    (GG.Id gg) (GG.LatestVersion gg) = Ok gv →
  ∃ rest,
    history (associateDevicesWithGroup env getThingHandler1 saveGroupHandler
                                       taskInfo w).1
    = history w
      ++ [ GroupsDaoGet groupName;
           GetGroupInfo (GroupItem.id g);
           GetGroupVersionInfo (GG.Id gg) (GG.LatestVersion gg);
           GetCoreInfo (GG.CoreDefinitionVersionArn gv);
           GetDeviceInfo (GG.DeviceDefinitionVersionArn gv);
           TemplatesDaoGet (GroupItem.templateName g)
                           (GroupItem.templateVersionNo g) ]
      ++ rest.
Proof.
  intros groupName Hid Hname Hdevices Hg Hgg Hgv.
  pose proof (resolve_lookups env taskInfo w g gg gv
                Hid Hname Hdevices Hg Hgg Hgv) as Hh.
  fold groupName in Hh. unfold lookups in Hh.
  rewrite associate_run.
  destruct (associateDevicesWithGroup_resolve env taskInfo w)
    as [w1 [request|e]]; simpl in Hh.
  - destruct (execute_events getThingHandler1 saveGroupHandler request w1)
      as (post & Hev & _).
    rewrite Hev, Hh, <- app_assoc. by eexists.
  - exists []. simpl. by rewrite Hh.
Qed.

Lemma associateDevicesWithGroup_starts_three_lookups_witness :
  ∃ rest,
    history (associateDevicesWithGroup goodEnv quietHandler quietHandler
                                       sampleTask world0).1
    = [ GroupsDaoGet "group-1"; GetGroupInfo "gg-group-1";
        GetGroupVersionInfo "gg-group-1" "v1";
        GetCoreInfo "arn:core:A"; GetDeviceInfo "arn:device:A";
        TemplatesDaoGet "template-1" 1 ] ++ rest.
Proof.
  exact (associateDevicesWithGroup_starts_three_lookups
           goodEnv quietHandler quietHandler sampleTask world0
           (sampleGroup "group-1") (GG.mkGroup "gg-group-1" "v1") groupVersionA
           ltac:(discriminate) ltac:(discriminate) ltac:(discriminate)
           eq_refl eq_refl eq_refl).
Defined.

(** C7, as stated, fails: two runs whose collaborators differ in nothing
    but the answer of the group version lookup make different core
    definition lookups, because that lookup takes its argument from the
    group version. *)
Lemma core_lookup_consumes_group_version :
  definitionLookups
    (history (associateDevicesWithGroup (sampleEnv groupVersionA (Ok tt))
                quietHandler quietHandler sampleTask world0).1)
  = [ GetCoreInfo "arn:core:A"; GetDeviceInfo "arn:device:A";
      TemplatesDaoGet "template-1" 1 ]
  ∧ definitionLookups
      (history (associateDevicesWithGroup (sampleEnv groupVersionB (Ok tt))
                  quietHandler quietHandler sampleTask world0).1)
    = [ GetCoreInfo "arn:core:B"; GetDeviceInfo "arn:device:A";
        TemplatesDaoGet "template-1" 1 ].
Proof. split; vm_compute; reflexivity. Qed.

(** ** The chain and the guard together *)





Lemma finalStatus_settled (g : GroupItem.t) :
  finalStatus g = Success ∨ finalStatus g = Failure.
Proof. unfold finalStatus. destruct (decide _); auto. Qed.


Lemma finalise_settled (objects : list DeviceItem.t) (request : Request) :
  settled (stringifyRequest objects (finalise request)).
Proof. apply finalStatus_settled. Qed.

Lemma settled_started (r : RequestJson) : settled r → started r.
Proof. unfold settled, started. intros [-> | ->]; discriminate. Qed.

Section ChainFacts.

Variable persist : list Event → RequestJson → Result unit.



End ChainFacts.






(** * Further properties of the devices service *)

(** ** [createDeviceAssociationTask]: failures *)

(** X1: on a valid input for a group the group store does not know,
    [createDeviceAssociationTask] throws the error ['NOT_FOUND'] after a
    single call, the group lookup: the control plane is not asked, no id is
    generated, no object is created, nothing is written or published. *)
Theorem createDeviceAssociationTask_unknown_group
    (env : Env) (groupName : string) (items : list Ref) (w : World) :
  validInput (heap w) groupName items →
  groupsDao_get env (history w) groupName = Ok None →
  createDeviceAssociationTask env groupName items w
  = (mkWorld (history w ++ [GroupsDaoGet groupName]) (heap w) (unawaited w),
     Throw (mkError PlainError "NOT_FOUND")).
Proof.
  intros Hvalid Hg.
  pose proof (create_valid_early env groupName items w Hvalid) as Hearly.
  by rewrite Hg in Hearly.
Qed.

Lemma createDeviceAssociationTask_unknown_group_witness :
  createDeviceAssociationTask unknownGroupEnv "group-1" [0%nat] world0
  = (mkWorld [GroupsDaoGet "group-1"] [sampleDevice] [],
     Throw (mkError PlainError "NOT_FOUND")).
Proof.
  exact (createDeviceAssociationTask_unknown_group
           unknownGroupEnv "group-1" [0%nat] world0
           sample_input_valid eq_refl).
Defined.

(** X2: on a valid input, an error of the group store or of the control
    plane reaches the caller as it was thrown, and the call stops there: it
    has made the lookups up to the failing one and nothing else, and no
    object has been created. *)
Theorem createDeviceAssociationTask_propagates_lookup_errors
    (env : Env) (groupName : string) (items : list Ref) (w : World)
    (e : Error) :
  validInput (heap w) groupName items →
  (groupsDao_get env (history w) groupName = Throw e →
   createDeviceAssociationTask env groupName items w
   = (mkWorld (history w ++ [GroupsDaoGet groupName]) (heap w) (unawaited w),
      Throw e)) ∧
  (∀ g, groupsDao_get env (history w) groupName = Ok (Some g) →
        ggUtils_getGroupInfo env (history w ++ [GroupsDaoGet groupName])
                             (GroupItem.id g) = Throw e →
        createDeviceAssociationTask env groupName items w
        = (mkWorld (history w ++ [GroupsDaoGet groupName;
                                  GetGroupInfo (GroupItem.id g)])
                   (heap w) (unawaited w),
           Throw e)).
Proof.
  intros Hvalid.
  pose proof (create_valid_early env groupName items w Hvalid) as Hearly.
  split.
  - intros Hg. by rewrite Hg in Hearly.
  - intros g Hg Hgg. rewrite Hg in Hearly. by apply Hearly.
Qed.

Lemma createDeviceAssociationTask_propagates_lookup_errors_witness :
  createDeviceAssociationTask controlPlaneDownEnv "group-1" [0%nat] world0
  = (mkWorld [GroupsDaoGet "group-1"; GetGroupInfo "gg-group-1"]
             [sampleDevice] [],
     Throw controlPlaneDown).
Proof.
  exact (proj2 (createDeviceAssociationTask_propagates_lookup_errors
                  controlPlaneDownEnv "group-1" [0%nat] world0 controlPlaneDown
                  sample_input_valid)
               (sampleGroup "group-1") eq_refl eq_refl).
Defined.

(** X3: when the store write succeeds and the queue publish fails,
    [createDeviceAssociationTask] throws the queue's error and makes no
    further call: the task stays written to the store, in status
    [Waiting], with nothing published for it. *)
Theorem createDeviceAssociationTask_failed_publish_keeps_record
    (env : Env) (groupName : string) (items : list Ref) (w : World)
    (g : GroupItem.t) (gg : GG.Group) (e : Error) :
  let h5 := history w ++ prelude groupName g in
  let json := createdJson env w groupName g items in
  let q := deviceAssociationQueue env in
  validInput (heap w) groupName items →
  groupsDao_get env (history w) groupName = Ok (Some g) →
  ggUtils_getGroupInfo env (history w ++ [GroupsDaoGet groupName])
                       (GroupItem.id g) = Ok gg →
  devicesDao_saveDeviceAssociationTask env h5 json = Ok tt →
  sqs_sendMessage env (h5 ++ [SaveDeviceAssociationTask json]) q json
                  "DeviceTaskSummary" = Throw e →
  let run := createDeviceAssociationTask env groupName items w in
  run.2 = Throw e ∧
  history run.1 = h5 ++ [SaveDeviceAssociationTask json;
                         SendMessage q json "DeviceTaskSummary"] ∧
  DeviceTaskSummary.status json = Waiting.
Proof.
  intros h5 json q Hvalid Hg Hgg Hsave Hsend run.
  destruct (create_valid_late env groupName items w g gg Hvalid Hg Hgg)
    as (objects & _ & Hrun).
  cbv zeta in Hrun. fold h5 json q in Hrun.
  subst run. rewrite Hrun, Hsave, Hsend. by repeat split.
Qed.

Lemma createDeviceAssociationTask_failed_publish_keeps_record_witness :
  let run := createDeviceAssociationTask queueDownEnv "group-1" [0%nat] world0 in
  run.2 = Throw queueDown ∧
  history run.1
  = [ GroupsDaoGet "group-1"; GetGroupInfo "gg-group-1"; ShortidGenerate;
      NewDate; NewDate; SaveDeviceAssociationTask sampleJson;
      SendMessage "device-associations" sampleJson "DeviceTaskSummary" ].
Proof.
  destruct (createDeviceAssociationTask_failed_publish_keeps_record
              queueDownEnv "group-1" [0%nat] world0
              (sampleGroup "group-1") (GG.mkGroup "gg-group-1" "v1") queueDown
              sample_input_valid eq_refl eq_refl eq_refl eq_refl)
    as (Hresult & Hhistory & _).
  split; [exact Hresult|exact Hhistory].
Defined.

(** ** [createDeviceAssociationTask]: what a returned summary stands for *)

Lemma create_ok_valid (env : Env) (groupName : string) (items : list Ref)
    (w w' : World) (t : Task) :
  createDeviceAssociationTask env groupName items w = (w', Ok t) →
  validInput (heap w) groupName items.
Proof.
  unfold createDeviceAssociationTask. rewrite run_bind.
  destruct (nonEmpty groupName) eqn:Hname.
  2:{ destruct (ow_string_nonEmpty_fail _ w Hname) as (e & -> & _). done. }
  rewrite (ow_string_nonEmpty_ok _ _ Hname), run_bind.
  destruct items as [|r items]; [done|].
  simpl ow_array_minLength1. rewrite run_ret, run_bind.
  destruct (validation_loop_inv (r :: items) w) as [Hw Hok].
  destruct (forEach validateDevice (r :: items) w) as [w1 [[]|e]]; [|done].
  intros _. split; [by apply nonEmpty_true|]. split; [done|]. by apply Hok.
Qed.

(** X4: a summary that [createDeviceAssociationTask] returns has been
    written to the store and published to the injected queue, once each and
    in that order, as the last two calls; what was written and what was
    published is the returned summary as it serialises at the return, and
    the message is tagged ['DeviceTaskSummary']. *)
Theorem createDeviceAssociationTask_returns_what_it_published
    (env : Env) (groupName : string) (items : list Ref) (w w' : World)
    (t : Task) :
  createDeviceAssociationTask env groupName items w = (w', Ok t) →
  let json := DeviceTaskSummary.map_devices (λ r, heap w' !! r) t in
  ∃ pre,
    history w' = history w ++ pre
                 ++ [ SaveDeviceAssociationTask json;
                      SendMessage (deviceAssociationQueue env) json
                                  "DeviceTaskSummary" ] ∧
    Forall (λ ev, isStoreWrite ev = false ∧ isPublish ev = false) pre ∧
    unawaited w' = unawaited w.
Proof.
  intros Hrun json.
  pose proof (create_ok_valid _ _ _ _ _ _ Hrun) as Hvalid.
  pose proof (create_valid_early env groupName items w Hvalid) as Hearly.
  destruct Hvalid as (Hname & Hitems & Hall).
  destruct (objects_of_valid _ _ Hall) as (vals & H2 & Hvals).
  destruct (groupsDao_get env (history w) groupName) as [[g|]|e0] eqn:Hg;
    [|congruence..].
  destruct (ggUtils_getGroupInfo env (history w ++ [GroupsDaoGet groupName])
              (GroupItem.id g)) as [gg|e1] eqn:Hgg.
  2:{ rewrite (Hearly e1 eq_refl) in Hrun. congruence. }
  rewrite (create_valid_run env groupName items w vals g gg) in Hrun
    by assumption.
  cbv zeta in Hrun.
  destruct (devicesDao_saveDeviceAssociationTask _ _ _) as [[]|e2];
    [|congruence].
  destruct (sqs_sendMessage _ _ _ _ _) as [[]|e3]; [|congruence].
  injection Hrun as <- <-. subst json. simpl.
  exists (prelude groupName g). split; [by rewrite <- app_assoc|].
  split; [|reflexivity]. unfold prelude. repeat constructor.
Qed.

Lemma createDeviceAssociationTask_returns_what_it_published_witness :
  ∃ w' t pre,
    createDeviceAssociationTask goodEnv "group-1" [0%nat] world0 = (w', Ok t) ∧
    history w' = pre ++ [ SaveDeviceAssociationTask sampleJson;
                          SendMessage "device-associations" sampleJson
                                      "DeviceTaskSummary" ].
Proof.
  destruct (createDeviceAssociationTask goodEnv "group-1" [0%nat] world0)
    as [w' [t|e]] eqn:Hrun; [|vm_compute in Hrun; discriminate Hrun].
  destruct (createDeviceAssociationTask_returns_what_it_published
              goodEnv "group-1" [0%nat] world0 w' t Hrun)
    as (pre & Hhistory & _).
  exists w', t, pre. split; [reflexivity|].
  vm_compute in Hrun. injection Hrun as <- <-. exact Hhistory.
Defined.

(** ** The two lookups *)

(** X5: [getDevice] with an empty device id throws a validation error
    without calling the store; with any other id it makes one call, the
    store lookup of that id, and its result, a device, nothing or an error,
    is the store's. *)
Theorem getDevice_checks_then_forwards
    (env : Env) (deviceId : string) (w : World) :
  (deviceId = "" →
   ∃ e, getDevice env deviceId w = (w, Throw e) ∧ kind e = ArgumentError) ∧
  (deviceId ≠ "" →
   getDevice env deviceId w
   = (mkWorld (history w ++ [GetDevice deviceId]) (heap w) (unawaited w),
      devicesDao_getDevice env (history w) deviceId)).
Proof.
  unfold getDevice. rewrite run_bind. split.
  - intros ->. by eexists.
  - intros Hid. by rewrite ow_string_nonEmpty_ok by (by apply nonEmpty_true).
Qed.

Lemma getDevice_checks_then_forwards_witness :
  (∃ e, getDevice goodEnv "" world0 = (world0, Throw e)
        ∧ kind e = ArgumentError) ∧
  getDevice goodEnv "t1" world0
  = (mkWorld [GetDevice "t1"] [sampleDevice] [], Ok None).
Proof.
  destruct (getDevice_checks_then_forwards goodEnv "" world0) as [Hempty _].
  destruct (getDevice_checks_then_forwards goodEnv "t1" world0) as [_ Hother].
  split; [exact (Hempty eq_refl)|exact (Hother ltac:(discriminate))].
Defined.

(** X6: [getDeviceAssociationTask] with an empty task id throws a
    validation error without calling the store, whatever the group id.  With
    any other task id the result is the store's: a task the store does not
    have comes back as nothing, not as an error. *)
Theorem getDeviceAssociationTask_checks_taskId_only
    (env : Env) (groupId taskId : string) (w : World) :
  (taskId = "" →
   ∃ e, getDeviceAssociationTask env groupId taskId w = (w, Throw e)
        ∧ kind e = ArgumentError) ∧
  (taskId ≠ "" →
   devicesDao_getDeviceAssociationTask env (history w) groupId taskId = Ok None →
   getDeviceAssociationTask env groupId taskId w
   = (mkWorld (history w ++ [GetDeviceAssociationTask groupId taskId])
              (heap w) (unawaited w),
      Ok None)).
Proof.
  split.
  - intros ->. by eexists.
  - intros Htask Hnone. by rewrite getDeviceAssociationTask_run, Hnone.
Qed.

Lemma getDeviceAssociationTask_checks_taskId_only_witness :
  (∃ e, getDeviceAssociationTask goodEnv "group-1" "" world0
        = (world0, Throw e) ∧ kind e = ArgumentError) ∧
  getDeviceAssociationTask goodEnv "group-1" "PPBqWA9" world0
  = (mkWorld [GetDeviceAssociationTask "group-1" "PPBqWA9"] [sampleDevice] [],
     Ok None).
Proof.
  destruct (getDeviceAssociationTask_checks_taskId_only
              goodEnv "group-1" "" world0) as [Hempty _].
  destruct (getDeviceAssociationTask_checks_taskId_only
              goodEnv "group-1" "PPBqWA9" world0) as [_ Hother].
  split; [exact (Hempty eq_refl)|exact (Hother ltac:(discriminate) eq_refl)].
Defined.

(** ** [associateDevicesWithGroup]: before the chain *)

Lemma keepsHeap_ret {A} (a : A) : keepsHeap (mret a : M A).
Proof. intros w. reflexivity. Qed.

Lemma keepsHeap_throw {A} (e : Error) : keepsHeap (throw e : M A).
Proof. intros w. reflexivity. Qed.

Lemma keepsHeap_call {A} (ev : Event) (answer : list Event → Result A) :
  keepsHeap (call ev answer).
Proof. intros w. reflexivity. Qed.

Lemma keepsHeap_ow_string (s : string) : keepsHeap (ow_string_nonEmpty s).
Proof. intros w. unfold ow_string_nonEmpty. by destruct (nonEmpty s). Qed.

Lemma keepsHeap_ow_array {A} (label : string) (xs : list A) :
  keepsHeap (ow_array_minLength1 label xs).
Proof. intros w. by destruct xs. Qed.

Lemma keepsHeap_bind {A B} (m : M A) (k : A → M B) :
  keepsHeap m → (∀ a, keepsHeap (k a)) → keepsHeap (m ≫= k).
Proof.
  intros Hm Hk w. rewrite run_bind. specialize (Hm w).
  destruct (m w) as [w1 [a|e]]; simpl in *; [|exact Hm].
  by rewrite Hk.
Qed.

Lemma keepsHeap_getGroupItem (env : Env) (groupName : string) :
  keepsHeap (getGroupItem env groupName).
Proof.
  apply keepsHeap_bind; [apply keepsHeap_call|].
  intros [g|]; [apply keepsHeap_ret|apply keepsHeap_throw].
Qed.

Lemma keepsHeap_getTemplateItem (env : Env) (name : string) (versionNo : Z) :
  keepsHeap (getTemplateItem env name versionNo).
Proof.
  apply keepsHeap_bind; [apply keepsHeap_call|].
  intros [g|]; [apply keepsHeap_ret|apply keepsHeap_throw].
Qed.

Lemma keepsHeap_promiseAll3 {A B C} (a : M A) (b : M B) (c : M C) :
  keepsHeap a → keepsHeap b → keepsHeap c → keepsHeap (promiseAll3 a b c).
Proof.
  intros Ha Hb Hc w. unfold promiseAll3.
  specialize (Ha w). destruct (a w) as [w1 ra].
  specialize (Hb w1). destruct (b w1) as [w2 rb].
  specialize (Hc w2). destruct (c w2) as [w3 rc].
  simpl in *. congruence.
Qed.

(** Where every device is an object the marking loop runs to its end. *)
Lemma mark_loop_ok (devices : list Ref) (w : World) :
  allObjects (heap w) devices →
  ∃ w', forEach (λ d, assign d (DeviceItem.with_status InProgress)) devices w
        = (w', Ok tt).
Proof.
  revert w. induction devices as [|x devices IH]; intros w Hobj.
  - by eexists.
  - inversion Hobj as [|? ? [d Hx] Hrest]; subst. simpl.
    rewrite run_bind. unfold assign at 1. rewrite Hx. apply IH. simpl.
    eapply Forall_impl; [exact Hrest|].
    intros ref [d' Hd']. apply lookup_lt_is_Some.
    rewrite length_insert. by eapply lookup_lt_Some.
Qed.

(** What the marking loop does to each object. *)
Lemma mark_loop_values (devices : list Ref) (w w' : World) :
  forEach (λ d, assign d (DeviceItem.with_status InProgress)) devices w
    = (w', Ok tt) →
  ∀ ref, heap w' !! ref
         = (if bool_decide (ref ∈ devices)
            then DeviceItem.with_status InProgress <$> heap w !! ref
            else heap w !! ref).
Proof.
  revert w. induction devices as [|x devices IH]; intros w Hrun ref;
    simpl in Hrun.
  - rewrite run_ret in Hrun. by simplify_eq.
  - rewrite run_bind in Hrun. unfold assign at 1 in Hrun.
    destruct (heap w !! x) as [d|] eqn:Hx; [|discriminate Hrun].
    rewrite (IH _ Hrun ref). simpl.
    destruct (decide (ref = x)) as [->|Hne].
    + rewrite list_lookup_insert_eq by (by eapply lookup_lt_Some).
      rewrite Hx, (bool_decide_eq_true_2 (x ∈ x :: devices))
        by (apply elem_of_cons; by left).
      by destruct (bool_decide (x ∈ devices)).
    + rewrite list_lookup_insert_ne by done.
      destruct (bool_decide (ref ∈ devices)) eqn:Hin.
      * apply bool_decide_eq_true_1 in Hin.
        by rewrite (bool_decide_eq_true_2 (ref ∈ x :: devices))
          by (apply elem_of_cons; by right).
      * apply bool_decide_eq_false_1 in Hin.
        by rewrite (bool_decide_eq_false_2 (ref ∈ x :: devices))
          by (by apply not_elem_of_cons).
Qed.

Lemma throwsBeforeMarking_bind {A B} (devices : list Ref)
    (m : M A) (k : A → M B) :
  keepsHeap m → (∀ a, throwsBeforeMarking devices (k a)) →
  throwsBeforeMarking devices (m ≫= k).
Proof.
  intros Hm Hk w Hobj e. rewrite run_bind. specialize (Hm w).
  destruct (m w) as [w1 [a|e']]; simpl in *; [|by intros _].
  intros Hthrow. rewrite <- Hm in Hobj. rewrite (Hk a w1 Hobj e Hthrow).
  exact Hm.
Qed.

Lemma throwsBeforeMarking_resolve (env : Env) (taskInfo : Task) :
  throwsBeforeMarking (DeviceTaskSummary.devices taskInfo)
    (associateDevicesWithGroup_resolve env taskInfo).
Proof.
  unfold associateDevicesWithGroup_resolve.
  repeat (apply throwsBeforeMarking_bind;
          [ first [ apply keepsHeap_ow_string | apply keepsHeap_ow_array
                  | apply keepsHeap_getGroupItem | apply keepsHeap_call
                  | apply keepsHeap_promiseAll3;
                      first [ apply keepsHeap_call
                            | apply keepsHeap_getTemplateItem ] ]
          | intros ? ]).
  match goal with x : (_ * _ * _)%type |- _ => destruct x as [[? ?] ?] end.
  intros w Hobj e. cbv zeta. rewrite run_bind.
  destruct (mark_loop_ok
              (DeviceTaskSummary.devices
                 (DeviceTaskSummary.with_status InProgress taskInfo))
              w Hobj) as (w' & Hmark).
  rewrite Hmark. discriminate.
Qed.


(** X7: [associateDevicesWithGroup] called with a task whose [taskId] or
    [groupName] is empty, or that has no devices, throws a validation error
    and leaves the world as it was: no lookup is made, no device is marked,
    no handler is called. *)
Theorem associateDevicesWithGroup_rejects_undeliverable
    (env : Env) (getThingHandler1 saveGroupHandler : Handler)
    (taskInfo : Task) (w : World) :
  DeviceTaskSummary.taskId taskInfo = "" ∨
  DeviceTaskSummary.groupName taskInfo = "" ∨
  DeviceTaskSummary.devices taskInfo = [] →
  ∃ e, associateDevicesWithGroup env getThingHandler1 saveGroupHandler
                                 taskInfo w = (w, Throw e)
       ∧ kind e = ArgumentError.
Proof.
  intros Hbad. rewrite associate_run.
  unfold associateDevicesWithGroup_resolve. rewrite run_bind.
  destruct (nonEmpty (DeviceTaskSummary.taskId taskInfo)) eqn:Hid.
  2:{ destruct (ow_string_nonEmpty_fail _ w Hid) as (e & -> & He). eauto. }
  rewrite (ow_string_nonEmpty_ok _ _ Hid), run_bind.
  destruct (nonEmpty (DeviceTaskSummary.groupName taskInfo)) eqn:Hname.
  2:{ destruct (ow_string_nonEmpty_fail _ w Hname) as (e & -> & He). eauto. }
  rewrite (ow_string_nonEmpty_ok _ _ Hname), run_bind.
  apply nonEmpty_true in Hid, Hname.
  destruct Hbad as [?|[?|Hnil]]; [done..|]. rewrite Hnil. by eexists.
Qed.

Lemma associateDevicesWithGroup_rejects_undeliverable_witness :
  ∃ e, associateDevicesWithGroup goodEnv quietHandler quietHandler
         (DeviceTaskSummary.mk "PPBqWA9" "group-1" Waiting 5 6 []) world0
       = (world0, Throw e)
       ∧ kind e = ArgumentError.
Proof.
  apply associateDevicesWithGroup_rejects_undeliverable. right. right.
  reflexivity.
Defined.

(** X8: an [associateDevicesWithGroup] that is done without having called a
    handler has thrown: the method never returns normally unless it has
    called the first handler of the chain. *)
Theorem associateDevicesWithGroup_chain_not_reached_throws
    (env : Env) (getThingHandler1 saveGroupHandler : Handler)
    (taskInfo : Task) (w : World) :
  let run := associateDevicesWithGroup env getThingHandler1 saveGroupHandler
                                       taskInfo w in
  Forall (λ ev, isHandle ev = false) (events_since w run.1) →
  ∃ e, run.2 = Throw e.
Proof.
  intros run. subst run. rewrite associate_run.
  destruct (associateDevicesWithGroup_resolve env taskInfo w)
    as [w1 [request|e]] eqn:Hres.
  - destruct (resolve_inv _ _ _ _ _ Hres) as (_ & _ & _ & Hh & _).
    destruct (execute_events getThingHandler1 saveGroupHandler request w1)
      as (post & Hev & _).
    intros Hquiet. exfalso.
    rewrite Hh, <- app_assoc in Hev.
    rewrite (events_since_app _ _ _ Hev) in Hquiet.
    apply Forall_app in Hquiet as [_ Hquiet].
    by inversion Hquiet.
  - intros _. by eexists.
Qed.

Lemma associateDevicesWithGroup_chain_not_reached_throws_witness :
  ∃ e, (associateDevicesWithGroup unknownGroupEnv (throwingHandler "chain broke")
                                  quietHandler sampleTask world0).2 = Throw e.
Proof.
  apply (associateDevicesWithGroup_chain_not_reached_throws
           unknownGroupEnv (throwingHandler "chain broke") quietHandler sampleTask
           world0).
  vm_compute. repeat constructor.
Defined.

(** X9: where every device of the task is an object, an
    [associateDevicesWithGroup] that is done without having called a handler
    has changed no object: the devices are marked only after the last
    lookup, right before the first handler is called, so a failed check or
    lookup leaves every status as it was delivered. *)
Theorem associateDevicesWithGroup_marks_only_before_chain
    (env : Env) (getThingHandler1 saveGroupHandler : Handler)
    (taskInfo : Task) (w : World) :
  let run := associateDevicesWithGroup env getThingHandler1 saveGroupHandler
                                       taskInfo w in
  allObjects (heap w) (DeviceTaskSummary.devices taskInfo) →
  Forall (λ ev, isHandle ev = false) (events_since w run.1) →
  heap run.1 = heap w.
Proof.
  intros run Hobj. subst run. rewrite associate_run.
  destruct (associateDevicesWithGroup_resolve env taskInfo w)
    as [w1 [request|e]] eqn:Hres.
  - destruct (resolve_inv _ _ _ _ _ Hres) as (_ & _ & _ & Hh & _).
    destruct (execute_events getThingHandler1 saveGroupHandler request w1)
      as (post & Hev & _).
    intros Hquiet. exfalso.
    rewrite Hh, <- app_assoc in Hev.
    rewrite (events_since_app _ _ _ Hev) in Hquiet.
    apply Forall_app in Hquiet as [_ Hquiet].
    by inversion Hquiet.
  - intros _.
    pose proof (throwsBeforeMarking_resolve env taskInfo w Hobj e) as Hclean.
    rewrite Hres in Hclean. by apply Hclean.
Qed.

Lemma associateDevicesWithGroup_marks_only_before_chain_witness :
  heap (associateDevicesWithGroup unknownTemplateEnv quietHandler quietHandler
                                  sampleTask world0).1
  = [sampleDevice].
Proof.
  apply (associateDevicesWithGroup_marks_only_before_chain
           unknownTemplateEnv quietHandler quietHandler sampleTask world0).
  - repeat constructor. by eexists.
  - vm_compute. repeat constructor.
Defined.

(** After the three checks and the lookups of the group, of its Greengrass
    group and of the group version. *)
Lemma resolve_after_group_version (env : Env) (taskInfo : Task) (w : World)
    (g : GroupItem.t) (gg : GG.Group) (gv : GG.GroupVersion) :
  let groupName := DeviceTaskSummary.groupName taskInfo in
  deliverable taskInfo →
  groupsDao_get env (history w) groupName = Ok (Some g) →
  ggUtils_getGroupInfo env (history w ++ [GroupsDaoGet groupName])
                       (GroupItem.id g) = Ok gg →
  ggUtils_getGroupVersionInfo env
    (history w ++ [GroupsDaoGet groupName; GetGroupInfo (GroupItem.id g)])
    (GG.Id gg) (GG.LatestVersion gg) = Ok gv →
  ∃ k,
    associateDevicesWithGroup_resolve env taskInfo w
    = (promiseAll3
         (call (GetCoreInfo (GG.CoreDefinitionVersionArn gv))
               (λ h, ggUtils_getCoreInfo env h (GG.CoreDefinitionVersionArn gv)))
         (call (GetDeviceInfo (GG.DeviceDefinitionVersionArn gv))
               (λ h, ggUtils_getDeviceInfo env h
                       (GG.DeviceDefinitionVersionArn gv)))
         (getTemplateItem env (GroupItem.templateName g)
                          (GroupItem.templateVersionNo g))
       ≫= k)
        (mkWorld (history w ++ [ GroupsDaoGet groupName;
                                 GetGroupInfo (GroupItem.id g);
                                 GetGroupVersionInfo (GG.Id gg)
                                                     (GG.LatestVersion gg) ])
                 (heap w) (unawaited w)).
Proof.
  intros groupName (Hid & Hname & Hdevices) Hg Hgg Hgv.
  unfold associateDevicesWithGroup_resolve. fold groupName.
  rewrite run_bind, ow_string_nonEmpty_ok by (by apply nonEmpty_true).
  rewrite run_bind, ow_string_nonEmpty_ok by (by apply nonEmpty_true).
  rewrite run_bind, ow_array_minLength1_ok by assumption.
  rewrite run_bind. unfold getGroupItem. rewrite run_bind. unfold call at 1.
  rewrite Hg, run_ret.
  rewrite run_bind. unfold call at 1. unfold record at 1 2. simpl history.
  rewrite Hgg.
  rewrite run_bind. unfold call at 1. unfold record at 1 2. simpl history.
  rewrite <- app_assoc. simpl app. rewrite Hgv.
  eexists. unfold record. simpl. rewrite <- app_assoc. reflexivity.
Qed.

(** X10: for a deliverable task whose group the group store does not know,
    [associateDevicesWithGroup] throws ['NOT_FOUND'] after the group lookup
    alone: nothing else is looked up, no device is marked, no handler is
    called, SaveGroup included. *)
Theorem associateDevicesWithGroup_unknown_group
    (env : Env) (getThingHandler1 saveGroupHandler : Handler)
    (taskInfo : Task) (w : World) :
  deliverable taskInfo →
  groupsDao_get env (history w) (DeviceTaskSummary.groupName taskInfo)
    = Ok None →
  associateDevicesWithGroup env getThingHandler1 saveGroupHandler taskInfo w
  = (mkWorld (history w ++ [GroupsDaoGet (DeviceTaskSummary.groupName taskInfo)])
             (heap w) (unawaited w),
     Throw (mkError PlainError "NOT_FOUND")).
Proof.
  intros (Hid & Hname & Hdevices) Hg. rewrite associate_run.
  unfold associateDevicesWithGroup_resolve.
  rewrite run_bind, ow_string_nonEmpty_ok by (by apply nonEmpty_true).
  rewrite run_bind, ow_string_nonEmpty_ok by (by apply nonEmpty_true).
  rewrite run_bind, ow_array_minLength1_ok by assumption.
  rewrite run_bind. unfold getGroupItem. rewrite run_bind. unfold call at 1.
  rewrite Hg. reflexivity.
Qed.

Lemma sampleTask_deliverable : deliverable sampleTask.
Proof. repeat split; discriminate. Qed.

Lemma associateDevicesWithGroup_unknown_group_witness :
  associateDevicesWithGroup unknownGroupEnv quietHandler quietHandler
                            sampleTask world0
  = (mkWorld [GroupsDaoGet "group-1"] [sampleDevice] [],
     Throw (mkError PlainError "NOT_FOUND")).
Proof.
  exact (associateDevicesWithGroup_unknown_group
           unknownGroupEnv quietHandler quietHandler sampleTask world0
           sampleTask_deliverable eq_refl).
Defined.

(** X11: for a deliverable task whose group names a template the template
    store does not have, [associateDevicesWithGroup] throws ['NOT_FOUND']
    even though the core and the device definition lookups, started along
    with the template lookup, both succeed: all six lookups have been made,
    no device is marked and no handler is called. *)
Theorem associateDevicesWithGroup_unknown_template
    (env : Env) (getThingHandler1 saveGroupHandler : Handler)
    (taskInfo : Task) (w : World)
    (g : GroupItem.t) (gg : GG.Group) (gv : GG.GroupVersion)
    (c : GG.CoreDefinitionVersion) (d : GG.DeviceDefinitionVersion) :
  let groupName := DeviceTaskSummary.groupName taskInfo in
  let h3 := history w ++ [ GroupsDaoGet groupName;
                           GetGroupInfo (GroupItem.id g);
                           GetGroupVersionInfo (GG.Id gg) (GG.LatestVersion gg) ] in
  deliverable taskInfo →
  groupsDao_get env (history w) groupName = Ok (Some g) →
  ggUtils_getGroupInfo env (history w ++ [GroupsDaoGet groupName])
                       (GroupItem.id g) = Ok gg →
  ggUtils_getGroupVersionInfo env
    (history w ++ [GroupsDaoGet groupName; GetGroupInfo (GroupItem.id g)])
    (GG.Id gg) (GG.LatestVersion gg) = Ok gv →
  ggUtils_getCoreInfo env h3 (GG.CoreDefinitionVersionArn gv) = Ok c →
  ggUtils_getDeviceInfo env
    (h3 ++ [GetCoreInfo (GG.CoreDefinitionVersionArn gv)])
    (GG.DeviceDefinitionVersionArn gv) = Ok d →
  templatesDao_get env
    (h3 ++ [ GetCoreInfo (GG.CoreDefinitionVersionArn gv);
             GetDeviceInfo (GG.DeviceDefinitionVersionArn gv) ])
    (GroupItem.templateName g) (GroupItem.templateVersionNo g) = Ok None →
  associateDevicesWithGroup env getThingHandler1 saveGroupHandler taskInfo w
  = (mkWorld (history w ++ lookups groupName g gg gv) (heap w) (unawaited w),
     Throw (mkError PlainError "NOT_FOUND")).
Proof.
  intros groupName h3 Hok Hg Hgg Hgv Hc Hd Ht.
  destruct (resolve_after_group_version env taskInfo w g gg gv Hok Hg Hgg Hgv)
    as (k & Hres).
  rewrite associate_run, Hres. fold groupName. fold h3.
  rewrite run_bind. unfold promiseAll3, getTemplateItem.
  unfold call at 1. simpl history. rewrite Hc.
  unfold call at 1. unfold record at 1 2. simpl history. rewrite Hd.
  rewrite run_bind. unfold call at 1. unfold record at 1 2. simpl history.
  rewrite <- (app_assoc h3). simpl app. rewrite Ht.
  unfold record, lookups. simpl. subst h3. by rewrite <- !app_assoc.
Qed.

Lemma associateDevicesWithGroup_unknown_template_witness :
  associateDevicesWithGroup unknownTemplateEnv quietHandler quietHandler
                            sampleTask world0
  = (mkWorld [ GroupsDaoGet "group-1"; GetGroupInfo "gg-group-1";
               GetGroupVersionInfo "gg-group-1" "v1";
               GetCoreInfo "arn:core:A"; GetDeviceInfo "arn:device:A";
               TemplatesDaoGet "template-1" 1 ]
             [sampleDevice] [],
     Throw (mkError PlainError "NOT_FOUND")).
Proof.
  exact (associateDevicesWithGroup_unknown_template
           unknownTemplateEnv quietHandler quietHandler sampleTask world0
           (sampleGroup "group-1") (GG.mkGroup "gg-group-1" "v1") groupVersionA
           (GG.mkCore "arn:core:A") (GG.mkDevice "arn:device:A")
           sampleTask_deliverable eq_refl eq_refl eq_refl eq_refl eq_refl
           eq_refl).
Defined.

(** ** [associateDevicesWithGroup]: at and after the chain *)

(** The first element of a list with a property, and what comes before it,
    are determined by the list. *)
Lemma first_split_unique {A} (P : A → bool) (pre pre' post post' : list A)
    (x x' : A) :
  pre ++ x :: post = pre' ++ x' :: post' →
  Forall (λ a, P a = false) pre → Forall (λ a, P a = false) pre' →
  P x = true → P x' = true →
  pre = pre' ∧ x = x'.
Proof.
  revert pre'. induction pre as [|a pre IH]; intros [|a' pre'] Heq Hpre Hpre' Hx Hx';
    simpl in Heq.
  - by simplify_eq.
  - simplify_eq. inversion Hpre'; congruence.
  - simplify_eq. inversion Hpre; congruence.
  - injection Heq as <- Heq. inversion Hpre; inversion Hpre'; subst.
    destruct (IH pre' Heq) as [-> ->]; auto.
Qed.

(** X12: the request the first handler is called with holds the task as it
    was delivered, statuses apart: the same [taskId], [groupName],
    [createdAt] and [updatedAt], and the same devices in the same order,
    each with the [thingName], [type], [provisioningTemplate] and
    [statusMessage] it was delivered with and the status [InProgress]. *)
Theorem associateDevicesWithGroup_hands_on_the_delivered_task
    (env : Env) (getThingHandler1 saveGroupHandler : Handler)
    (taskInfo : Task) (w : World)
    (pre post : list Event) (name : HandlerName) (request : RequestJson) :
  let w' := (associateDevicesWithGroup env getThingHandler1 saveGroupHandler
                                       taskInfo w).1 in
  events_since w w' = pre ++ Handle name request :: post →
  Forall (λ ev, isHandle ev = false) pre →
  name = GetThingHandler1 ∧
  DeviceAssociationModel.taskInfo request
  = DeviceTaskSummary.mk
      (DeviceTaskSummary.taskId taskInfo)
      (DeviceTaskSummary.groupName taskInfo)
      InProgress
      (DeviceTaskSummary.createdAt taskInfo)
      (DeviceTaskSummary.updatedAt taskInfo)
      ((λ r, DeviceItem.with_status InProgress <$> heap w !! r)
         <$> DeviceTaskSummary.devices taskInfo).
Proof.
  intros w' Hsplit Hpre. subst w'. revert Hsplit. rewrite associate_run.
  destruct (associateDevicesWithGroup_resolve env taskInfo w)
    as [w1 [live|e]] eqn:Hres.
  - destruct (resolve_inv _ _ _ _ _ Hres)
      as (_ & _ & _ & Hh & _ & Htask & Hall).
    destruct (execute_events getThingHandler1 saveGroupHandler live w1)
      as (post' & Hev & _).
    rewrite Hh, <- app_assoc in Hev.
    rewrite (events_since_app _ _ _ Hev). intros Hsplit.
    destruct (first_split_unique isHandle _ _ _ _ _ _ Hsplit)
      as [_ Hsame]; [by repeat constructor|exact Hpre|reflexivity..|].
    injection Hsame as <- <-. split; [reflexivity|].
    unfold stringifyRequest. simpl. rewrite Htask.
    unfold DeviceTaskSummary.map_devices. simpl. f_equal.
    apply list_fmap_ext. intros i ref Hi.
    assert (Hmarked : ∃ wm, forEach (λ d, assign d (DeviceItem.with_status InProgress))
                              (DeviceTaskSummary.devices taskInfo) wm
                            = (w1, Ok tt) ∧ heap wm = heap w).
    { clear -Hres. unfold associateDevicesWithGroup_resolve in Hres.
      run_ow Hres. run_ow Hres.
      assert (Hdevices : DeviceTaskSummary.devices taskInfo ≠ []).
      { intros Hnil. rewrite run_bind, Hnil in Hres. discriminate Hres. }
      rewrite run_bind, ow_array_minLength1_ok in Hres by exact Hdevices.
      rewrite run_bind in Hres. unfold getGroupItem in Hres. run_call Hres.
      destruct (groupsDao_get env (history w) _) as [[g|]|e0];
        [|discriminate Hres..].
      rewrite run_ret in Hres. run_call Hres.
      destruct (ggUtils_getGroupInfo env _ _) as [gg|e1]; [|discriminate Hres].
      run_call Hres.
      destruct (ggUtils_getGroupVersionInfo env _ _ _) as [gv|e2];
        [|discriminate Hres].
      rewrite run_bind in Hres. unfold promiseAll3, getTemplateItem in Hres.
      unfold call, mbind, M_bind in Hres. cbn beta iota zeta in Hres.
      destruct (ggUtils_getCoreInfo env _ _) as [c|e3];
        [|settle_answers Hres].
      destruct (ggUtils_getDeviceInfo env _ _) as [d|e4];
        [|settle_answers Hres].
      destruct (templatesDao_get env _ _ _) as [[t|]|e5];
        [|discriminate Hres..].
      unfold mret at 1, M_ret at 1 in Hres. cbn beta iota zeta in Hres.
      match type of Hres with
      | context [forEach ?f ?ds ?w0] =>
          destruct (forEach f ds w0) as [w2 r2] eqn:Hmark
      end.
      destruct r2 as [[]|e6]; [|discriminate Hres].
      injection Hres as <- _. eexists. split; [exact Hmark|reflexivity]. }
    destruct Hmarked as (wm & Hmark & Hwm).
    rewrite (mark_loop_values _ _ _ Hmark ref), Hwm.
    rewrite bool_decide_eq_true_2; [reflexivity|].
    by eapply list_elem_of_lookup_2.
  - destruct (quiet_resolve env taskInfo w) as (evs & Hevs & Hquiet).
    rewrite Hres in Hevs. simpl in *.
    rewrite (events_since_app _ _ _ Hevs). intros ->.
    apply Forall_app in Hquiet as [_ Hquiet]. by inversion Hquiet.
Qed.

Lemma associateDevicesWithGroup_hands_on_the_delivered_task_witness :
  GetThingHandler1 = GetThingHandler1 ∧
  DeviceAssociationModel.taskInfo
    (stringifyRequest (heap world1) sampleRequest)
  = DeviceTaskSummary.mk "PPBqWA9" "group-1" InProgress 5 6
      [Some (DeviceItem.mk "t1" "core" "tmpl-a" (Some InProgress) None)].
Proof.
  apply (associateDevicesWithGroup_hands_on_the_delivered_task
           goodEnv quietHandler quietHandler sampleTask world0
           (lookups "group-1" (sampleGroup "group-1")
                    (GG.mkGroup "gg-group-1" "v1") groupVersionA)
           []).
  - reflexivity.
  - by repeat constructor.
Defined.

(** X13: when the chain completes normally the service does nothing after
    it: the world it returns is the one the chain left, nothing is left
    unawaited, and [saveGroupHandler] is not called by the service, so the
    outcome is the same whichever handler is injected as [saveGroupHandler].
    Whether the task was saved is then up to the chain alone. *)
Theorem associateDevicesWithGroup_adds_nothing_on_success
    (env : Env) (getThingHandler1 saveGroupHandler other : Handler)
    (taskInfo : Task) (w w1 : World) (request : Request) (u : unit) :
  let run := invoked GetThingHandler1 getThingHandler1 request
                     (history w1) (heap w1) in
  associateDevicesWithGroup_resolve env taskInfo w = (w1, Ok request) →
  outcome run = Ok u →
  associateDevicesWithGroup env getThingHandler1 saveGroupHandler taskInfo w
  = (mkWorld (history w1 ++ emitted run) (heap_after run) (unawaited w), Ok tt)
  ∧ associateDevicesWithGroup env getThingHandler1 other taskInfo w
    = associateDevicesWithGroup env getThingHandler1 saveGroupHandler taskInfo w.
Proof.
  intros run Hres Hok.
  destruct (resolve_inv _ _ _ _ _ Hres) as (_ & _ & _ & _ & Hu & _).
  rewrite !associate_run, Hres, !execute_run. cbv zeta. fold run.
  rewrite Hok, Hu. by split.
Qed.

Lemma associateDevicesWithGroup_adds_nothing_on_success_witness :
  associateDevicesWithGroup goodEnv quietHandler (throwingHandler "unused")
                            sampleTask world0
  = associateDevicesWithGroup goodEnv quietHandler quietHandler
                              sampleTask world0.
Proof.
  exact (proj2 (associateDevicesWithGroup_adds_nothing_on_success
                  goodEnv quietHandler quietHandler (throwingHandler "unused")
                  sampleTask world0 world1 sampleRequest tt
                  sample_resolve eq_refl)).
Defined.

(** * Properties of the REST application *)

Lemma includes_true (xs : list string) (x : option string) :
  App.includes xs x = true ↔ ∃ s, x = Some s ∧ s ∈ xs.
Proof.
  destruct x as [s|]; simpl.
  - rewrite bool_decide_eq_true. split; [by eexists|]. by intros (? & [= <-] & ?).
  - split; [done|]. by intros (? & ? & _).
Qed.

(** X14: after the version middleware, every request other than an
    [OPTIONS] request has an [accept] header, and its value is one of the
    supported versions or the default mime type: a request with an
    unsupported or missing [accept] header is not refused, it is relabelled. *)
Theorem onlySupportedVersions_accept
    (supportedVersions : list string) (DEFAULT_MIME_TYPE : string)
    (req : App.Request) :
  App.method req ≠ "OPTIONS" →
  ∃ a, App.headers (App.onlySupportedVersions supportedVersions
                      DEFAULT_MIME_TYPE req) !! "accept" = Some a
       ∧ (a ∈ supportedVersions ∨ a = DEFAULT_MIME_TYPE).
Proof.
  intros Hmethod. unfold App.onlySupportedVersions.
  rewrite (bool_decide_eq_false_2 _ Hmethod), orb_false_r.
  destruct (App.includes supportedVersions (App.headers req !! "accept"))
    eqn:Hinc.
  - apply includes_true in Hinc as (s & Hs & Hin). eauto.
  - exists DEFAULT_MIME_TYPE. simpl. split; [|by right].
    rewrite lookup_insert_ne by done. by rewrite lookup_insert_eq.
Qed.

Lemma onlySupportedVersions_accept_witness :
  ∃ a, App.headers (App.onlySupportedVersions sampleVersions v1Mime xmlRequest)
         !! "accept" = Some a
       ∧ (a ∈ sampleVersions ∨ a = v1Mime).
Proof.
  apply onlySupportedVersions_accept. discriminate.
Defined.

(** X15: the version middleware touches nothing but the [accept] and the
    [content-type] header of the request: method, url and every other
    header stay as they were; and it is idempotent, whether or not the
    default mime type is itself a supported version. *)
Theorem onlySupportedVersions_frame_and_idempotent
    (supportedVersions : list string) (DEFAULT_MIME_TYPE : string)
    (req : App.Request) :
  let gate := App.onlySupportedVersions supportedVersions DEFAULT_MIME_TYPE in
  App.method (gate req) = App.method req ∧
  App.url (gate req) = App.url req ∧
  (∀ name, name ≠ "accept" → name ≠ "content-type" →
           App.headers (gate req) !! name = App.headers req !! name) ∧
  gate (gate req) = gate req.
Proof.
  intros gate. subst gate.
  destruct (App.includes supportedVersions (App.headers req !! "accept")
            || bool_decide (App.method req = "OPTIONS")) eqn:Hpass.
  - assert (Hsame : App.onlySupportedVersions supportedVersions
                      DEFAULT_MIME_TYPE req = req)
      by (unfold App.onlySupportedVersions; by rewrite Hpass).
    by rewrite !Hsame.
  - assert (Hnew : App.onlySupportedVersions supportedVersions
                     DEFAULT_MIME_TYPE req
                   = App.mkRequest (App.method req) (App.url req)
                       (<["content-type" := DEFAULT_MIME_TYPE]>
                          (<["accept" := DEFAULT_MIME_TYPE]> (App.headers req))))
      by (unfold App.onlySupportedVersions; by rewrite Hpass).
    rewrite !Hnew. simpl. split; [done|]. split; [done|]. split.
    + intros name Ha Hc. by rewrite !lookup_insert_ne.
    + unfold App.onlySupportedVersions. simpl.
      apply orb_false_iff in Hpass as [_ Hmethod]. rewrite Hmethod, orb_false_r.
      destruct (App.includes _ _); [reflexivity|]. f_equal.
      apply map_eq. intros name.
      destruct (decide (name = "content-type")) as [->|Hc];
        [by rewrite !lookup_insert_eq|].
      destruct (decide (name = "accept")) as [->|Ha];
        repeat (rewrite lookup_insert_eq || rewrite lookup_insert_ne by done);
        reflexivity.
Qed.

(** X16: for a request other than an [OPTIONS] request that the two
    library middlewares pass on with its [accept] header as they found it,
    the five middlewares run through, and the response then has a
    [Content-Type]: the one it had when it reached the defaulting
    middleware, untouched, or else the request's [accept] type after the
    version middleware, which is a supported version or the default mime
    type. *)
Theorem installed_sets_content_type
    (supportedVersions : list string) (DEFAULT_MIME_TYPE : string)
    (basePath : option string) (normalisePath : string → string → string)
    (bodyParser_json setVersionByAcceptHeader : App.Middleware)
    (req req2 req3 : App.Request) (res res2 res3 : App.Response) :
  let req1 := App.removeBasePath basePath normalisePath
                (App.onlySupportedVersions supportedVersions DEFAULT_MIME_TYPE
                                           req) in
  App.method req ≠ "OPTIONS" →
  bodyParser_json req1 res = Ok (req2, res2) →
  setVersionByAcceptHeader req2 res2 = Ok (req3, res3) →
  App.headers req3 !! "accept" = App.headers req1 !! "accept" →
  ∃ res',
    App.installed supportedVersions DEFAULT_MIME_TYPE basePath normalisePath
                  bodyParser_json setVersionByAcceptHeader req res
    = Ok (req3, res') ∧
    match res3 !! "content-type" with
    | Some _ => res' = res3
    | None => ∃ a, res' = <["content-type" := a]> res3
                   ∧ (a ∈ supportedVersions ∨ a = DEFAULT_MIME_TYPE)
    end.
Proof.
  intros req1 Hmethod Hparse Hversion Haccept.
  destruct (onlySupportedVersions_accept supportedVersions DEFAULT_MIME_TYPE
              req Hmethod) as (a & Ha & Hsupported).
  assert (Hkept : App.headers req3 !! "accept" = Some a).
  { rewrite Haccept. subst req1. unfold App.removeBasePath.
    by destruct basePath. }
  unfold App.installed. fold req1. rewrite Hparse, Hversion.
  unfold App.defaultResponseHeaders.
  destruct (res3 !! "content-type") as [ct|] eqn:Hct.
  - by eexists.
  - rewrite Hkept. simpl. eexists. split; [reflexivity|]. by exists a.
Qed.

Lemma installed_sets_content_type_witness :
  ∃ res',
    App.installed sampleVersions v1Mime None (λ url _, url)
                  passThrough passThrough xmlRequest ∅
    = Ok (App.onlySupportedVersions sampleVersions v1Mime xmlRequest, res')
    ∧ res' = {["content-type" := v1Mime]}.
Proof.
  destruct (installed_sets_content_type sampleVersions v1Mime None
              (λ url _, url) passThrough passThrough xmlRequest
              (App.onlySupportedVersions sampleVersions v1Mime xmlRequest)
              (App.onlySupportedVersions sampleVersions v1Mime xmlRequest)
              ∅ ∅ ∅ ltac:(discriminate) eq_refl eq_refl eq_refl)
    as (res' & Hrun & Hres).
  exists res'. split; [exact Hrun|]. vm_compute in Hrun. by injection Hrun as <-.
Defined.

(** X17: an [OPTIONS] request without an [accept] header passes the version
    middleware as it is, and if the response has no [Content-Type] yet, the
    defaulting middleware calls [setHeader] with [undefined] and throws. *)
Theorem configured_throws_on_bare_options
    (supportedVersions : list string) (DEFAULT_MIME_TYPE : string)
    (basePath : option string) (normalisePath : string → string → string)
    (req : App.Request) (res : App.Response) :
  App.method req = "OPTIONS" →
  App.headers req !! "accept" = None →
  res !! "content-type" = None →
  App.onlySupportedVersions supportedVersions DEFAULT_MIME_TYPE req = req ∧
  ∃ e, App.configured supportedVersions DEFAULT_MIME_TYPE basePath
                      normalisePath req res = Throw e
       ∧ kind e = TypeError.
Proof.
  intros Hmethod Haccept Hct.
  assert (Hgate : App.onlySupportedVersions supportedVersions DEFAULT_MIME_TYPE
                    req = req).
  { unfold App.onlySupportedVersions.
    by rewrite (bool_decide_eq_true_2 _ Hmethod), orb_true_r. }
  split; [exact Hgate|].
  unfold App.configured, App.defaultResponseHeaders. rewrite Hgate, Hct.
  replace (App.headers (App.removeBasePath basePath normalisePath req)
           !! "accept") with (@None string)
    by (unfold App.removeBasePath; by destruct basePath).
  by eexists.
Qed.

Lemma configured_throws_on_bare_options_witness :
  ∃ e, App.configured sampleVersions v1Mime None (λ url _, url)
                      bareOptionsRequest ∅ = Throw e
       ∧ kind e = TypeError.
Proof.
  exact (proj2 (configured_throws_on_bare_options sampleVersions v1Mime None
                  (λ url _, url) bareOptionsRequest ∅ eq_refl eq_refl eq_refl)).
Defined.

(** * Properties of the deployment templates service *)

Lemma templates_run_bind {A B} (m : Templates.T A) (f : A → Templates.T B)
    (past : list Templates.Call) :
  (m ≫= f) past =
  match m past with
  | (past', Ok a) => f a past'
  | (past', Throw e) => (past', Throw e)
  end.
Proof. reflexivity. Qed.

Lemma templates_ow_ok (s : string) (past : list Templates.Call) :
  s ≠ "" → Templates.ow_string_nonEmpty s past = (past, Ok tt).
Proof.
  intros Hs. unfold Templates.ow_string_nonEmpty.
  by rewrite (proj2 (nonEmpty_true s) Hs).
Qed.

Lemma templates_ow_fail (past : list Templates.Call) :
  ∃ e, Templates.ow_string_nonEmpty "" past = (past, Throw e)
       ∧ kind e = ArgumentError.
Proof. by eexists. Qed.

(** Below [2^53] in magnitude adding one is exact. *)
Lemma add_one_exact (x : Z) :
  - 2 ^ 53 ≤ x < 2 ^ 53 → Templates.add x 1 = x + 1.
Proof.
  intros Hx. unfold Templates.add, Templates.nearest_double.
  destruct (Z.leb_spec (Z.abs (x + 1)) (2 ^ 53)) as [_|Hbig]; [reflexivity|].
  lia.
Qed.

(** After the five checks. *)
Lemma save_complete (dao : Templates.Dao) (t : Templates.Model.t)
    (past : list Templates.Call) :
  complete t →
  ∃ k, Templates.save dao t past
       = (Templates.call (Templates.DaoGet (Templates.Model.name t))
            (λ past, Templates.dao_get dao past (Templates.Model.name t))
          ≫= k) past
       ∧ ∀ existing, k existing
           = (now ← Templates.call Templates.NewDate
                      (λ past, Ok (Templates.new_Date dao past));
              let saved :=
                match existing with
                | Some old =>
                    Templates.Model.mk
                      (Templates.Model.name t) (Templates.Model.type t)
                      (Templates.Model.source t)
                      (Templates.add (Templates.Model.versionNo old) 1)
                      (Templates.Model.createdAt old) now
                      (Templates.Model.enabled old)
                | None =>
                    Templates.Model.mk
                      (Templates.Model.name t) (Templates.Model.type t)
                      (Templates.Model.source t) 1 now now
                      (Some (default true (Templates.Model.enabled t)))
                end in
              Templates.call (Templates.DaoSave saved)
                (λ past, Templates.dao_save dao past saved)).
Proof.
  intros (Hname & Htype & Hst & Hbucket & Hprefix).
  unfold Templates.save.
  do 5 (rewrite templates_run_bind, templates_ow_ok by assumption).
  eexists. split; [reflexivity|].
  intros [old|]; simpl.
  - by destruct (Templates.Model.enabled old).
  - by destruct (Templates.Model.enabled t).
Qed.

(** X18: [save] called with a template one of whose [name], [type],
    [source.type], [source.bucket] and [source.prefix] is empty throws a
    validation error before anything else happens: the dao is not asked for
    an existing template, the clock is not read, nothing is saved. *)
Theorem templates_save_rejects_incomplete
    (dao : Templates.Dao) (t : Templates.Model.t)
    (past : list Templates.Call) :
  ¬ complete t →
  ∃ e, Templates.save dao t past = (past, Throw e) ∧ kind e = ArgumentError.
Proof.
  intros Hbad. unfold Templates.save.
  destruct (decide (Templates.Model.name t = "")) as [->|Hname];
    [apply templates_ow_fail|].
  rewrite templates_run_bind, templates_ow_ok by assumption.
  destruct (decide (Templates.Model.type t = "")) as [->|Htype];
    [apply templates_ow_fail|].
  rewrite templates_run_bind, templates_ow_ok by assumption.
  destruct (decide (Templates.Source.type (Templates.Model.source t) = ""))
    as [->|Hst]; [apply templates_ow_fail|].
  rewrite templates_run_bind, templates_ow_ok by assumption.
  destruct (decide (Templates.Source.bucket (Templates.Model.source t) = ""))
    as [->|Hbucket]; [apply templates_ow_fail|].
  rewrite templates_run_bind, templates_ow_ok by assumption.
  destruct (decide (Templates.Source.prefix (Templates.Model.source t) = ""))
    as [->|Hprefix]; [apply templates_ow_fail|].
  by destruct Hbad.
Qed.

Lemma templates_save_rejects_incomplete_witness :
  ∃ e, Templates.save (sampleDao None)
         (Templates.Model.mk "tmpl-a" "agentbased"
            (Templates.Source.mk "s3" "" "templates/") 0 0 0 None) []
       = ([], Throw e)
       ∧ kind e = ArgumentError.
Proof.
  apply templates_save_rejects_incomplete.
  intros (_ & _ & _ & Hbucket & _). by apply Hbucket.
Defined.

(** X19: [save] of a complete template under a name the dao does not have
    writes version 1: [createdAt] and [updatedAt] are both the one reading
    of the clock, [enabled] is the caller's flag, or [true] when the caller
    gave none, and name, type and source are the caller's.  The calls are
    the lookup, the clock and the write, and the result is the write's. *)
Theorem templates_save_first_version
    (dao : Templates.Dao) (t : Templates.Model.t)
    (past : list Templates.Call) :
  let name := Templates.Model.name t in
  let now := Templates.new_Date dao (past ++ [Templates.DaoGet name]) in
  let saved :=
    Templates.Model.mk name (Templates.Model.type t) (Templates.Model.source t)
      1 now now (Some (default true (Templates.Model.enabled t))) in
  complete t →
  Templates.dao_get dao past name = Ok None →
  Templates.save dao t past
  = (past ++ [Templates.DaoGet name; Templates.NewDate; Templates.DaoSave saved],
     Templates.dao_save dao
       (past ++ [Templates.DaoGet name; Templates.NewDate]) saved).
Proof.
  intros name now saved Hcomplete Hget.
  destruct (save_complete dao t past Hcomplete) as (k & -> & Hk).
  rewrite templates_run_bind. unfold Templates.call at 1. fold name.
  rewrite Hget, Hk, templates_run_bind. unfold Templates.call. simpl.
  fold name. by rewrite <- !app_assoc.
Qed.

Lemma sampleTemplate_complete : complete sampleTemplate.
Proof. repeat split; discriminate. Qed.

Lemma templates_save_first_version_witness :
  Templates.save (sampleDao None) sampleTemplate []
  = ([ Templates.DaoGet "tmpl-a"; Templates.NewDate;
       Templates.DaoSave
         (Templates.Model.mk "tmpl-a" "agentbased" sampleSource 1 1001 1001
                             (Some false)) ],
     Ok tt).
Proof.
  exact (templates_save_first_version (sampleDao None) sampleTemplate []
           sampleTemplate_complete eq_refl).
Defined.

(** X20: [save] of a complete template under a name the dao already has
    writes the next version: the stored version number plus one as the
    doubles add, the stored [createdAt], the clock's reading as [updatedAt],
    and the stored [enabled] flag, the flag the caller sent being discarded.
    While the stored version number is below [2^53] in magnitude the one
    written is exactly one more, so strictly greater; at [2^53] the sum
    rounds back and the version written is the stored one. *)
Theorem templates_save_next_version
    (dao : Templates.Dao) (t old : Templates.Model.t)
    (past : list Templates.Call) :
  let name := Templates.Model.name t in
  let now := Templates.new_Date dao (past ++ [Templates.DaoGet name]) in
  let saved :=
    Templates.Model.mk name (Templates.Model.type t) (Templates.Model.source t)
      (Templates.add (Templates.Model.versionNo old) 1)
      (Templates.Model.createdAt old) now
      (Templates.Model.enabled old) in
  complete t →
  Templates.dao_get dao past name = Ok (Some old) →
  Templates.save dao t past
  = (past ++ [Templates.DaoGet name; Templates.NewDate; Templates.DaoSave saved],
     Templates.dao_save dao
       (past ++ [Templates.DaoGet name; Templates.NewDate]) saved)
  ∧ (- 2 ^ 53 ≤ Templates.Model.versionNo old < 2 ^ 53 →
     Templates.Model.versionNo saved = Templates.Model.versionNo old + 1)
  ∧ Templates.add (2 ^ 53) 1 = 2 ^ 53.
Proof.
  intros name now saved Hcomplete Hget. split; [|split].
  - destruct (save_complete dao t past Hcomplete) as (k & -> & Hk).
    rewrite templates_run_bind. unfold Templates.call at 1. fold name.
    rewrite Hget, Hk, templates_run_bind. unfold Templates.call. simpl.
    fold name. by rewrite <- !app_assoc.
  - intros Hrange. simpl. apply add_one_exact. exact Hrange.
  - reflexivity.
Qed.

Lemma templates_save_next_version_witness :
  Templates.save (sampleDao (Some storedTemplate)) sampleTemplate []
  = ([ Templates.DaoGet "tmpl-a"; Templates.NewDate;
       Templates.DaoSave
         (Templates.Model.mk "tmpl-a" "agentbased" sampleSource 4 100 1001
                             (Some true)) ],
     Ok tt)
  ∧ Templates.add (Templates.Model.versionNo storedTemplate) 1 = 4.
Proof.
  destruct (templates_save_next_version (sampleDao (Some storedTemplate))
              sampleTemplate storedTemplate []
              sampleTemplate_complete eq_refl) as (Hrun & Hnext & _).
  split; [exact Hrun|].
  apply Hnext. vm_compute. split; [discriminate|reflexivity].
Defined.

(** X21: [save] takes nothing from the [versionNo], [createdAt] and
    [updatedAt] the caller sends: two templates that agree on name, type,
    source and [enabled] are saved alike, with the same calls and the same
    result. *)
Theorem templates_save_ignores_caller_bookkeeping
    (dao : Templates.Dao) (t t' : Templates.Model.t)
    (past : list Templates.Call) :
  Templates.Model.name t = Templates.Model.name t' →
  Templates.Model.type t = Templates.Model.type t' →
  Templates.Model.source t = Templates.Model.source t' →
  Templates.Model.enabled t = Templates.Model.enabled t' →
  Templates.save dao t past = Templates.save dao t' past.
Proof.
  destruct t, t'. simpl. intros -> -> -> ->. reflexivity.
Qed.

Lemma templates_save_ignores_caller_bookkeeping_witness :
  Templates.save (sampleDao None) sampleTemplate []
  = Templates.save (sampleDao None)
      (Templates.Model.mk "tmpl-a" "agentbased" sampleSource 1 0 0 (Some false))
      [].
Proof.
  exact (templates_save_ignores_caller_bookkeeping (sampleDao None)
           sampleTemplate _ [] eq_refl eq_refl eq_refl eq_refl).
Defined.

(** X22: when the lookup of the existing template fails, [save] throws the
    dao's error and stops: the clock is not read and nothing is written. *)
Theorem templates_save_stops_on_lookup_error
    (dao : Templates.Dao) (t : Templates.Model.t)
    (past : list Templates.Call) (e : Error) :
  complete t →
  Templates.dao_get dao past (Templates.Model.name t) = Throw e →
  Templates.save dao t past
  = (past ++ [Templates.DaoGet (Templates.Model.name t)], Throw e).
Proof.
  intros Hcomplete Hget.
  destruct (save_complete dao t past Hcomplete) as (k & -> & _).
  rewrite templates_run_bind. unfold Templates.call at 1. by rewrite Hget.
Qed.

Lemma templates_save_stops_on_lookup_error_witness :
  Templates.save downDao sampleTemplate []
  = ([Templates.DaoGet "tmpl-a"], Throw storeDownError).
Proof.
  exact (templates_save_stops_on_lookup_error downDao sampleTemplate []
           storeDownError sampleTemplate_complete eq_refl).
Defined.

(** X23: [get] never returns nothing.  With an empty name it throws a
    validation error without calling the dao; for a name the dao does not
    have it throws ['NOT_FOUND']; and a template it returns is the one the
    dao answered to the single lookup of that name. *)
Theorem templates_get_found_or_throws
    (dao : Templates.Dao) (name : string) (past : list Templates.Call) :
  (name = "" →
   ∃ e, Templates.get dao name past = (past, Throw e)
        ∧ kind e = ArgumentError) ∧
  (name ≠ "" → Templates.dao_get dao past name = Ok None →
   Templates.get dao name past
   = (past ++ [Templates.DaoGet name], Throw (mkError PlainError "NOT_FOUND"))) ∧
  (∀ past' t, Templates.get dao name past = (past', Ok t) →
              name ≠ "" ∧ past' = past ++ [Templates.DaoGet name]
              ∧ Templates.dao_get dao past name = Ok (Some t)).
Proof.
  unfold Templates.get. split; [|split].
  - intros ->. by eexists.
  - intros Hname Hget.
    rewrite templates_run_bind, templates_ow_ok by assumption.
    rewrite templates_run_bind. unfold Templates.call. by rewrite Hget.
  - intros past' t. destruct (decide (name = "")) as [->|Hname]; [done|].
    rewrite templates_run_bind, templates_ow_ok by assumption.
    rewrite templates_run_bind. unfold Templates.call.
    destruct (Templates.dao_get dao past name) as [[found|]|e]; [|done..].
    intros [= <- <-]. done.
Qed.

Lemma templates_get_found_or_throws_witness :
  (∃ e, Templates.get (sampleDao None) "" [] = ([], Throw e)
        ∧ kind e = ArgumentError) ∧
  Templates.get (sampleDao None) "tmpl-a" []
  = ([Templates.DaoGet "tmpl-a"], Throw (mkError PlainError "NOT_FOUND")).
Proof.
  destruct (templates_get_found_or_throws (sampleDao None) "" [])
    as (Hempty & _).
  destruct (templates_get_found_or_throws (sampleDao None) "tmpl-a" [])
    as (_ & Hmissing & _).
  split; [exact (Hempty eq_refl)|exact (Hmissing ltac:(discriminate) eq_refl)].
Defined.
